(** * structeasy: geometry records, mesh import, plotting and solver glue

    A shallow embedding of [structeasy_class.py] and [structeasy_lib.py].

    Conventions of the embedding.
    - Python numbers (ints and floats alike) are read as the real numbers
      they stand for: arithmetic is exact, round-off is outside the model.
    - A call that may raise returns a [res]; code that also prints, drives
      the solver or shows a figure runs in the state-and-exception monad
      [M] over a [world].
    - The external libraries (gmsh, numpy, matplotlib, plotly, openseespy)
      are not part of the repository: what the code needs from them is
      either written out from their documented behaviour (numpy's
      [subtract], [cross] and [linspace]; the solver's [wipe] and [model])
      or taken as an interface whose fields are parameters of the
      development. *)

From Stdlib Require Import ZArith List String Ascii Bool Reals Lra Lia.
From Stdlib Require Import DecimalString DecimalPos DecimalZ.
From stdpp Require Import base option list gmap strings.

Set Warnings "-register-all".

Local Open Scope Z_scope.

(** ** Python values and exceptions *)

Inductive exn : Type :=
| IndexError
| TypeError
| ValueError
| ZeroDivisionError
| NameError (msg : string)
| ImportError
| OtherError (msg : string).

Inductive res (A : Type) : Type :=
| Ok (a : A)
| Raise (e : exn).
Arguments Ok {A} a.
Arguments Raise {A} e.

#[global] Instance res_ret : MRet res := fun A a => Ok a.
#[global] Instance res_bind : MBind res := fun A B k r =>
  match r with
  | Ok a => k a
  | Raise e => Raise e
  end.

Inductive pyval : Type :=
| VNone
| VNum (r : R)
| VComplex (re im : R)
| VStr (s : string)
| VList (l : list pyval).

(** [l[i]] on a Python list, for a non-negative index. *)
Definition getitem {A} (l : list A) (i : nat) : res A :=
  match nth_error l i with
  | Some a => Ok a
  | None => Raise IndexError
  end.

(** [a, b, c = l] *)
Definition unpack3 {A} (l : list A) : res (A * A * A) :=
  match l with
  | [a; b; c] => Ok (a, b, c)
  | _ => Raise ValueError
  end.

(** [a - b] *)
Definition py_sub (a b : pyval) : res pyval :=
  match a, b with
  | VNum x, VNum y => Ok (VNum (x - y))
  | _, _ => Raise TypeError
  end.

(** [a + b], on numbers *)
Definition py_add (a b : pyval) : res pyval :=
  match a, b with
  | VNum x, VNum y => Ok (VNum (x + y))
  | _, _ => Raise TypeError
  end.

(** [a / b], on numbers *)
Definition py_div (a b : pyval) : res pyval :=
  match a, b with
  | VNum x, VNum y =>
      if Req_dec_T y 0 then Raise ZeroDivisionError else Ok (VNum (x / y))
  | _, _ => Raise TypeError
  end.

(** [a ** 2] *)
Definition pow_2 (a : pyval) : res pyval :=
  match a with
  | VNum x => Ok (VNum (x ^ 2))
  | _ => Raise TypeError
  end.

(** [a ** 0.5]: the square root of a non-negative number; a negative
    number has an imaginary one. *)
Definition pow_half (a : pyval) : res pyval :=
  match a with
  | VNum x =>
      if Rle_dec 0 x then Ok (VNum (sqrt x)) else Ok (VComplex 0 (sqrt (- x)))
  | _ => Raise TypeError
  end.

(** ** numpy, as far as [Element.vecxz] uses it

    Written out from numpy's documented behaviour on one-dimensional
    arguments. *)

(** Every entry of a sequence as a number. *)
Fixpoint as_nums (l : list pyval) : res (list R) :=
  match l with
  | [] => Ok []
  | VNum r :: l' => rs ← as_nums l'; Ok (r :: rs)
  | _ :: _ => Raise TypeError
  end.

Fixpoint sub_each (a b : list pyval) : res (list pyval) :=
  match a, b with
  | x :: a', y :: b' => d ← py_sub x y; ds ← sub_each a' b'; Ok (d :: ds)
  | _, _ => Ok []
  end.

(** [numpy.subtract(a, b)]: entry by entry; a sequence of one entry is
    broadcast over the other; other shapes do not fit. *)
Definition np_subtract (a b : list pyval) : res (list pyval) :=
  if (List.length a =? List.length b)%nat then sub_each a b
  else if (List.length a =? 1)%nat then
    sub_each (flat_map (fun _ => a) b) b
  else if (List.length b =? 1)%nat then
    sub_each a (flat_map (fun _ => b) a)
  else Raise ValueError.

(** [numpy.cross(a, b).tolist()]: both arguments have 2 or 3 entries, a
    missing third entry counts as zero, and two 2-entry arguments give the
    third component alone. *)
Definition np_cross (a b : list pyval) : res pyval :=
  match a, b with
  | [_; _; _], [_; _; _] =>
      u ← as_nums a; v ← as_nums b;
      match u, v with
      | [a0; a1; a2], [b0; b1; b2] =>
          Ok (VList [VNum (a1 * b2 - a2 * b1);
                     VNum (a2 * b0 - a0 * b2);
                     VNum (a0 * b1 - a1 * b0)])
      | _, _ => Raise ValueError
      end
  | [_; _], [_; _; _] =>
      u ← as_nums a; v ← as_nums b;
      match u, v with
      | [a0; a1], [b0; b1; b2] =>
          Ok (VList [VNum (a1 * b2); VNum (- (a0 * b2));
                     VNum (a0 * b1 - a1 * b0)])
      | _, _ => Raise ValueError
      end
  | [_; _; _], [_; _] =>
      u ← as_nums a; v ← as_nums b;
      match u, v with
      | [a0; a1; a2], [b0; b1] =>
          Ok (VList [VNum (- (a2 * b1)); VNum (a2 * b0);
                     VNum (a0 * b1 - a1 * b0)])
      | _, _ => Raise ValueError
      end
  | [_; _], [_; _] =>
      u ← as_nums a; v ← as_nums b;
      match u, v with
      | [a0; a1], [b0; b1] => Ok (VNum (a0 * b1 - a1 * b0))
      | _, _ => Raise ValueError
      end
  | _, _ => Raise ValueError
  end.

(** [numpy.linspace(start, stop, num)] *)
Definition np_linspace (start stop : R) (num : nat) : list R :=
  match num with
  | 1%nat => [start]
  | _ =>
      let step := ((stop - start) / INR (num - 1))%R in
      map (fun i => (start + INR i * step)%R) (seq 0 num)
  end.

(** ** structeasy_class.py *)

Module Node.

Record t : Type := mk {
  nnumber : Z;
  x : pyval;
  y : pyval;
  z : pyval;
  tag : Z;
  coord : list pyval;
  eltype : pyval;
  container : list pyval;
  data_analysis : list pyval
}.

(** [Node.__init__(self, nnumber, x, y, z, tag, eltype = 0)] *)
Definition init (nnumber : Z) (x y z : pyval) (tag : Z)
    (eltype : option pyval) : t :=
  {| nnumber := nnumber;
     x := x;
     y := y;
     z := z;
     tag := tag;
     coord := [x; y; z];
     eltype := default (VNum 0) eltype;
     container := [];
     data_analysis := [] |}.

End Node.

Module Element.

Record t : Type := mk {
  enumber : Z;
  nodes : list Node.t;
  nodei : Z;
  nodej : Z;
  tag : Z;
  etype : pyval;
  container : list pyval;
  data_analysis : list pyval
}.

(** [Element.__init__(self, enumber, nodes, tag, etype = 1)] *)
Definition init (enumber : Z) (nodes : list Node.t) (tag : Z)
    (etype : option pyval) : res t :=
  n0 ← getitem nodes 0;
  n1 ← getitem nodes 1;
  Ok {| enumber := enumber;
        nodes := nodes;
        nodei := Node.nnumber n0;
        nodej := Node.nnumber n1;
        tag := tag;
        etype := default (VNum 1) etype;
        container := [];
        data_analysis := [] |}.

(** [Element.length(self)] *)
Definition length (self : t) : res pyval :=
  if (List.length (nodes self) =? 2)%nat then
    n0 ← getitem (nodes self) 0;
    '(x1, y1, z1) ← unpack3 (Node.coord n0);
    n1 ← getitem (nodes self) 1;
    '(x2, y2, z2) ← unpack3 (Node.coord n1);
    dx ← py_sub x2 x1;
    dx2 ← pow_2 dx;
    dy ← py_sub y2 y1;
    dy2 ← pow_2 dy;
    s1 ← py_add dx2 dy2;
    dz ← py_sub z2 z1;
    dz2 ← pow_2 dz;
    s2 ← py_add s1 dz2;
    pow_half s2
  else Ok VNone.

(** The default of [vecxy]: the global vertical axis. *)
Definition vecxy_default : list pyval := [VNum 0; VNum 0; VNum 1].

(** [Element.vecxz(self, vecxy = [0, 0, 1])]; numpy is taken to be
    installed, so that the import at the head of the method succeeds. *)
Definition vecxz (self : t) (vecxy : option (list pyval)) : res pyval :=
  let vecxy := default vecxy_default vecxy in
  n1 ← getitem (nodes self) 1;
  n0 ← getitem (nodes self) 0;
  xaxis ← np_subtract (Node.coord n1) (Node.coord n0);
  np_cross xaxis vecxy.

End Element.

(** ** structeasy_lib.py: mesh import *)

(** What [assign_tag] asks of the mesh engine's [model]. *)
Class GmshModel : Type := {
  (** [model.getEntitiesForPhysicalGroup(dim, tag).tolist()] *)
  getEntitiesForPhysicalGroup : Z -> Z -> list Z
}.

(** The loop of [assign_tag], entered with [tag]. *)
Definition assign_tag_loop `{GmshModel} (nnumber eltype : Z) (tag : Z)
    (model_tags : list (Z * Z)) : Z :=
  foldl
    (fun tag tag_ =>
       let eltype_ := tag_.1 in
       if bool_decide (eltype_ = eltype)
          && bool_decide (nnumber ∈ getEntitiesForPhysicalGroup eltype tag_.2)
       then tag_.2
       else tag)
    tag model_tags.

(** [assign_tag(nnumber, eltype, model_tags)], local to [import_geofile];
    [model_tags] holds the (dimension, identifier) pairs of the physical
    groups. *)
Definition assign_tag `{GmshModel} (nnumber eltype : Z)
    (model_tags : list (Z * Z)) : Z :=
  assign_tag_loop nnumber eltype (-1) model_tags.

(** ** The world the library functions act on *)

(** The solver's session: space dimension and degrees of freedom per node
    of the model built last, if any. *)
Record ops_model : Type := OpsModel {
  ndm : Z;
  ndf : Z
}.

Record Marker : Type := { marker_size : Z; marker_color : list string }.

Record Line : Type := { line_color : string; line_width : Z }.

Inductive FontColor : Type :=
| OneColor (c : string)
| EachColor (cs : list string).

(** [go.Scatter3d(...)], with the keywords the code passes. *)
Record Scatter3d : Type := {
  sc_x : list pyval;
  sc_y : list pyval;
  sc_z : list pyval;
  sc_mode : string;
  sc_marker : option Marker;
  sc_line : option Line;
  sc_text : option (list (option string));
  sc_textposition : option string;
  sc_textfont : option FontColor;
  sc_showlegend : bool
}.

Record Axis : Type := {
  axis_title : string;
  backgroundcolor : string;
  tickfont_color : string;
  tickfont_size : Z;
  tickfont_family : string
}.

Record Layout : Type := {
  xaxis : Axis;
  yaxis : Axis;
  zaxis : Axis;
  width : Z;
  height : Z;
  margin : Z * Z * Z * Z
}.

Record Figure : Type := {
  fig_data : list Scatter3d;
  fig_layout : option Layout
}.

(** The state a call can observe or change: the text printed so far, the
    solver's session, the figures shown, the files written, and the two
    caller-owned dictionaries, which Python passes by reference. A
    dictionary is the list of its items in insertion order. *)
Record world : Type := World {
  stdout : list string;
  ops : option ops_model;
  shown : list Figure;
  files : list (string * Figure);
  nodes_db : list (Z * Node.t);
  elements_db : list (Z * Element.t)
}.

Definition M (A : Type) : Type := world -> res A * world.

#[global] Instance M_ret : MRet M := fun A a w => (Ok a, w).
#[global] Instance M_bind : MBind M := fun A B k m w =>
  match m w with
  | (Ok a, w') => k a w'
  | (Raise e, w') => (Raise e, w')
  end.

Definition raise {A} (e : exn) : M A := fun w => (Raise e, w).

Definition lift {A} (r : res A) : M A := fun w => (r, w).

Definition gets {A} (f : world -> A) : M A := fun w => (Ok (f w), w).

Definition modify (f : world -> world) : M unit := fun w => (Ok tt, f w).

(** [try: body / except: handler], the bare [except] that catches
    everything. *)
Definition try_except {A} (body handler : M A) : M A := fun w =>
  match body w with
  | (Ok a, w') => (Ok a, w')
  | (Raise _, w') => handler w'
  end.

(** [print(s)] *)
Definition print (s : string) : M unit :=
  modify (fun w => World (stdout w ++ [s]) (ops w) (shown w) (files w)
                         (nodes_db w) (elements_db w)).

(** [str(n)] of an integer *)
Definition str (n : Z) : string := NilZero.string_of_int (Z.to_int n).

(** ** structeasy_lib.py: solver glue *)

(** [wipe()] *)
Definition wipe : M unit :=
  modify (fun w => World (stdout w) None (shown w) (files w)
                         (nodes_db w) (elements_db w)).

(** [model('basic', '-ndm', ndm, '-ndf', ndf)] *)
Definition model_basic (ndm ndf : Z) : M unit :=
  modify (fun w => World (stdout w) (Some (OpsModel ndm ndf)) (shown w)
                         (files w) (nodes_db w) (elements_db w)).

(** The double quote character, as a string. *)
Definition dquote : string := String "034"%char EmptyString.

(** ['-- Not valid model type, try "2d" or "3d" --'] *)
Definition not_valid_model_type : string :=
  "-- Not valid model type, try " +:+ dquote +:+ "2d" +:+ dquote
  +:+ " or " +:+ dquote +:+ "3d" +:+ dquote +:+ " --".

(** [start_model(typology)]; the solver library is taken to be installed,
    so that the import at the head of the function succeeds. *)
Definition start_model (typology : string) : M unit :=
  if bool_decide (typology = "3d") then
    wipe;;
    model_basic 3 6;;
    print "3d model initialized"
  else if bool_decide (typology = "2d") then
    wipe;;
    model_basic 2 3;;
    print "2d model initialized"
  else
    print EmptyString;;
    raise (NameError not_valid_model_type).

(** What [material_tester] calls outside the repository. Each call may do
    anything to the world and may raise anything. *)
Class MaterialEnv : Type := {
  (** [from openseespy.opensees import testUniaxialMaterial, getStress,
      setStrain] *)
  import_opensees : M unit;
  (** [from matplotlib.pyplot import grid, plot, subplots] *)
  import_pyplot : M unit;
  testUniaxialMaterial : Z -> M unit;
  setStrain : pyval -> M unit;
  getStress : M pyval;
  (** [fig, ax = subplots(dpi=120)]; the axes are the handle the later
      calls are made on *)
  subplots : Z -> M pyval;
  ax_set_title : pyval -> string -> M unit;
  (** [np.array(stress) / scaleStress] *)
  np_array_div : list pyval -> pyval -> M pyval;
  ax_plot : pyval -> list pyval -> pyval -> string -> M unit;
  ax_grid : pyval -> string -> string -> M unit;
  ax_set_xlabel : pyval -> string -> M unit;
  ax_set_ylabel : pyval -> string -> M unit
}.

(** [title + ' | Material Tag: ' + str(matTag)] *)
Definition plot_title (title : pyval) (matTag : Z) : res string :=
  match title with
  | VStr s => Ok (s +:+ " | Material Tag: " +:+ str matTag)
  | _ => Raise TypeError
  end.

(** The loop of [material_tester]: [stress] is the list built so far. *)
Fixpoint test_strains `{MaterialEnv} (strain stress : list pyval)
    : M (list pyval) :=
  match strain with
  | [] => mret stress
  | eps :: strain' =>
      setStrain eps;;
      s ← getStress;
      test_strains strain' (stress ++ [s])
  end.

Definition material_tester_hint : string :=
  "Please check material and openseespy definition or matplotlib library".

(** The body of the [try] block of [material_tester]. *)
Definition material_test `{MaterialEnv} (matTag : Z) (strain : list pyval)
    (title : pyval) (scaleStress : pyval) : M unit :=
  import_opensees;;
  import_pyplot;;
  testUniaxialMaterial matTag;;
  stress ← test_strains strain [];
  ax ← subplots 120;
  t ← lift (plot_title title matTag);
  ax_set_title ax t;;
  scaled ← np_array_div stress scaleStress;
  ax_plot ax strain scaled "#45818e";;
  ax_grid ax "--" "#e2e2e2";;
  ax_set_xlabel ax "Strain";;
  ax_set_ylabel ax "Stress".

(** [material_tester(matTag, strain, title, scaleStress)]; the module
    itself imports numpy when it is loaded, so the import that precedes
    the [try] finds it. *)
Definition material_tester `{MaterialEnv} (matTag : Z) (strain : list pyval)
    (title : pyval) (scaleStress : pyval) : M unit :=
  try_except
    (material_test matTag strain title scaleStress)
    (print material_tester_hint).

(** ** structeasy_lib.py: visualization *)

(** What [plot_model] relies on outside the repository: the order in which
    CPython iterates over [set(l)], which lists every member of [l] once,
    and matplotlib's [cm.rainbow], from a position in [0, 1] to an RGBA
    colour. *)
Class PlotEnv : Type := {
  set_iter : list Z -> list Z;
  set_iter_NoDup : forall l, NoDup (set_iter l);
  set_iter_elem : forall l t, t ∈ set_iter l <-> t ∈ l;
  rainbow : R -> R * R * R * R
}.

(** [int(r)]: truncation towards zero. *)
Definition py_int (r : R) : Z :=
  if Rle_dec 0 r then Int_part r else - Int_part (- r).

(** [f'rgb({int(color[0]*255)},{int(color[1]*255)},{int(color[2]*255)})'] *)
Definition rgb_string (color : R * R * R * R) : string :=
  let '(c0, c1, c2, _) := color in
  "rgb(" +:+ str (py_int (c0 * 255)) +:+ "," +:+ str (py_int (c1 * 255))
  +:+ "," +:+ str (py_int (c2 * 255)) +:+ ")".

(** [list(set([n.tag for n in nodes_db.values() if n.tag != -1]
              + [e.tag for e in elements_db.values() if e.tag != -1]))] *)
Definition tags_of `{PlotEnv} (nodes_db : list (Z * Node.t))
    (elements_db : list (Z * Element.t)) : list Z :=
  set_iter (filter (fun t => t ≠ -1) (map (fun n => Node.tag n.2) nodes_db)
            ++ filter (fun t => t ≠ -1)
                 (map (fun e => Element.tag e.2) elements_db)).

(** [cm.rainbow(np.linspace(0, 1, len(tags)))] *)
Definition colors_of `{PlotEnv} (tags : list Z) : list (R * R * R * R) :=
  map rainbow (np_linspace 0 1 (List.length tags)).

(** [{tag: f'rgb(...)' for tag, color in zip(tags, colors)}] *)
Definition tag_color_map_of (tags : list Z) (colors : list (R * R * R * R))
    : gmap Z string :=
  foldl (fun m tc => <[tc.1 := rgb_string tc.2]> m) ∅ (zip tags colors).

(** [sum(l)] *)
Definition py_sum (l : list pyval) : res pyval :=
  foldl (fun acc v => a ← acc; py_add a v) (Ok (VNum 0)) l.

(** [sum(l) / len(l)] *)
Definition mean (l : list pyval) : res pyval :=
  s ← py_sum l;
  py_div s (VNum (INR (List.length l))).

Definition scene_axis (title : string) : Axis :=
  {| axis_title := title;
     backgroundcolor := "#f0f0f0";
     tickfont_color := "darkgrey";
     tickfont_size := 12;
     tickfont_family := "Arial" |}.

Section plot_model.
Context `{PlotEnv}.
Variables (show_numbers show_tags color_by_tag save_html : bool).
Variables (filename : string) (show_legend : bool).

(** [color] of an element in the loop of [plot_model]. *)
Definition element_color (tag_color_map : gmap Z string)
    (element : Element.t) : string :=
  if color_by_tag
  then default "black" (tag_color_map !! Element.tag element)
  else "black".

(** One pass of the loop over [elements_db.items()]: the traces of one
    element, appended to [element_traces]. *)
Definition element_step (tag_color_map : gmap Z string)
    (element_traces : list Scatter3d) (item : Z * Element.t)
    : res (list Scatter3d) :=
  let '(enumber, element) := item in
  let x := map Node.x (Element.nodes element) in
  let y := map Node.y (Element.nodes element) in
  let z := map Node.z (Element.nodes element) in
  let color := element_color tag_color_map element in
  let text :=
    if show_tags
    then Some (str enumber +:+ "<br>Tag: " +:+ str (Element.tag element))
    else if show_numbers then Some (str enumber) else None in
  mid_x ← mean x;
  mid_y ← mean y;
  mid_z ← mean z;
  let element_trace :=
    {| sc_x := x; sc_y := y; sc_z := z;
       sc_mode := "lines";
       sc_marker := None;
       sc_line := Some {| line_color := color; line_width := 4 |};
       sc_text := None;
       sc_textposition := None;
       sc_textfont := None;
       sc_showlegend := show_legend |} in
  let element_traces :=
    if show_numbers || show_tags then
      element_traces ++
      [ {| sc_x := [mid_x]; sc_y := [mid_y]; sc_z := [mid_z];
           sc_mode := "text";
           sc_marker := None;
           sc_line := None;
           sc_text := Some [text];
           sc_textposition := Some "top center";
           sc_textfont := Some (OneColor color);
           sc_showlegend := false |} ]
    else element_traces in
  Ok (element_traces ++ [element_trace]).

Fixpoint element_loop (tag_color_map : gmap Z string)
    (element_traces : list Scatter3d) (items : list (Z * Element.t))
    : res (list Scatter3d) :=
  match items with
  | [] => Ok element_traces
  | item :: items' =>
      element_traces ← element_step tag_color_map element_traces item;
      element_loop tag_color_map element_traces items'
  end.

(** [fig.show()] *)
Definition show (fig : Figure) : M unit :=
  modify (fun w => World (stdout w) (ops w) (shown w ++ [fig]) (files w)
                         (nodes_db w) (elements_db w)).

(** [fig.write_html(filename)] *)
Definition write_html (fig : Figure) (filename : string) : M unit :=
  modify (fun w => World (stdout w) (ops w) (shown w)
                         (files w ++ [(filename, fig)])
                         (nodes_db w) (elements_db w)).

(** The colour map of [plot_model]. *)
Definition tag_color_map (nodes_db : list (Z * Node.t))
    (elements_db : list (Z * Element.t)) : gmap Z string :=
  if color_by_tag then
    let tags := tags_of nodes_db elements_db in
    let colors := colors_of tags in
    tag_color_map_of tags colors
  else ∅.

(** [node_color] of [plot_model]. *)
Definition node_color (tag_color_map : gmap Z string)
    (nodes_db : list (Z * Node.t)) : list string :=
  if color_by_tag
  then map (fun node => default "red" (tag_color_map !! Node.tag node.2))
           nodes_db
  else replicate (List.length nodes_db) "red".

(** [plot_model(nodes_db, elements_db, show_numbers, show_tags,
    color_by_tag, save_html, filename, show_legend)]; the two
    dictionaries are read from the world. *)
Definition plot_model : M unit :=
  nodes_db ← gets nodes_db;
  elements_db ← gets elements_db;
  let tag_color_map := tag_color_map nodes_db elements_db in
  let node_x := map (fun node => Node.x node.2) nodes_db in
  let node_y := map (fun node => Node.y node.2) nodes_db in
  let node_z := map (fun node => Node.z node.2) nodes_db in
  let node_color := node_color tag_color_map nodes_db in
  let node_trace :=
    {| sc_x := node_x; sc_y := node_y; sc_z := node_z;
       sc_mode :=
         if show_numbers || show_tags then "markers+text" else "markers";
       sc_marker := Some {| marker_size := 8; marker_color := node_color |};
       sc_line := None;
       sc_text :=
         if show_numbers then
           Some (map (fun item : Z * Node.t =>
                        let '(nnumber, node) := item in
                        if show_tags
                        then Some (str nnumber +:+ "<br>Tag: "
                                   +:+ str (Node.tag node))
                        else Some (str nnumber))
                     nodes_db)
         else None;
       sc_textposition := Some "middle right";
       sc_textfont := Some (EachColor node_color);
       sc_showlegend := show_legend |} in
  element_traces ← lift (element_loop tag_color_map [] elements_db);
  let fig :=
    {| fig_data := [node_trace] ++ element_traces;
       fig_layout :=
         Some {| xaxis := scene_axis "X axis";
                 yaxis := scene_axis "Y axis";
                 zaxis := scene_axis "Z axis";
                 width := 800;
                 height := 600;
                 margin := (0, 0, 0, 0) |} |} in
  show fig;;
  if save_html then write_html fig filename else mret tt.

End plot_model.

(** ** Vectors of three reals, for stating the geometric properties *)

Module Vec3.

Definition t : Type := R * R * R.










End Vec3.

(** ** Notions for stating the properties of the library functions *)

(** The entity [nnumber] of dimension [eltype] belongs to the physical
    group [g], one of its own dimension. *)
Definition in_group `{GmshModel} (nnumber eltype : Z) (g : Z * Z) : Prop :=
  g.1 = eltype /\ nnumber ∈ getEntitiesForPhysicalGroup eltype g.2.


(** The character [c] occurs in the string [s]. *)
Fixpoint occurs (c : ascii) (s : string) : Prop :=
  match s with
  | EmptyString => False
  | String a s' => a = c \/ occurs c s'
  end.


(** The CSS notation of three channels. *)
Definition css_rgb (channels : Z * Z * Z) : string :=
  let '(r, g, b) := channels in
  "rgb(" +:+ str r +:+ "," +:+ str g +:+ "," +:+ str b +:+ ")".

(** ** Sample environments *)

(** A mesh with the groups (0,1) = {1, 2}, (1,5) = {7} and
    (1,6) = {7, 8}. *)
Definition sample_mesh : GmshModel :=
  {| getEntitiesForPhysicalGroup := fun dim tag =>
       if bool_decide (dim = 0 /\ tag = 1) then [1; 2]
       else if bool_decide (dim = 1 /\ tag = 5) then [7]
       else if bool_decide (dim = 1 /\ tag = 6) then [7; 8]
       else [] |}.

(** A plotting environment: a set iterates in the order of the list it
    was built from, and the ramp runs from black to red. *)
Definition sample_plot_env : PlotEnv :=
  {| set_iter := remove_dups;
     set_iter_NoDup := NoDup_remove_dups;
     set_iter_elem := fun l t => elem_of_remove_dups l t;
     rainbow := fun x => (x, 0, 0, 1)%R |}.

(** A solver in which no material is defined: the material test fails
    at once, everything else succeeds. *)
Definition sample_material_env : MaterialEnv :=
  {| import_opensees := mret tt;
     import_pyplot := mret tt;
     testUniaxialMaterial := fun _ => raise (OtherError "no material");
     setStrain := fun _ => mret tt;
     getStress := mret (VNum 0);
     subplots := fun _ => mret VNone;
     ax_set_title := fun _ _ => mret tt;
     np_array_div := fun l _ => mret (VList l);
     ax_plot := fun _ _ _ _ => mret tt;
     ax_grid := fun _ _ _ => mret tt;
     ax_set_xlabel := fun _ _ => mret tt;
     ax_set_ylabel := fun _ _ => mret tt |}.

Definition sample_world : world :=
  {| stdout := [];
     ops := None;
     shown := [];
     files := [];
     nodes_db :=
       [(1, Node.init 1 (VNum 0) (VNum 0) (VNum 0) 1 None);
        (2, Node.init 2 (VNum 3) (VNum 4) (VNum 0) (-1) None)];
     elements_db :=
       [(1, Element.mk 1
              [Node.init 1 (VNum 0) (VNum 0) (VNum 0) 1 None;
               Node.init 2 (VNum 3) (VNum 4) (VNum 0) (-1) None]
              1 2 2 (VStr "uniaxial") [] [])] |}.

(** ** Python dictionaries, as lists of items in insertion order *)

(** [KeyError], carried by the general constructor of [exn]. *)
Definition KeyError : exn := OtherError "KeyError".

(** [d[k]] *)
Fixpoint dict_get {A} (d : list (Z * A)) (k : Z) : res A :=
  match d with
  | [] => Raise KeyError
  | (k', v) :: d' => if bool_decide (k' = k) then Ok v else dict_get d' k
  end.

(** [d[k] = v]: a key that is there keeps its place, a new one comes
    last. *)
Fixpoint dict_set {A} (d : list (Z * A)) (k : Z) (v : A) : list (Z * A) :=
  match d with
  | [] => [(k, v)]
  | (k', v') :: d' =>
      if bool_decide (k' = k) then (k, v) :: d'
      else (k', v') :: dict_set d' k v
  end.

(** ** structeasy_lib.py: [import_geofile] *)

(** What [import_geofile] asks of the mesh engine's [model] once a file
    is open; the two queries that compute on the geometry may fail. *)
Record GeoFile : Type := {
  geo_groups : GmshModel;
  (** [model.getEntities(dim)] *)
  getEntities : Z -> list (Z * Z);
  (** [model.getPhysicalGroups()] *)
  getPhysicalGroups : list (Z * Z);
  (** [model.getValue(dim, tag, ()).tolist()] *)
  getValue : Z -> Z -> res (list pyval);
  (** [model.getBoundary(dimTags)] *)
  getBoundary : list (Z * Z) -> res (list (Z * Z))
}.

(** The mesh engine: [open(filename)] loads a file or fails. *)
Class GmshEngine : Type := {
  gmsh_open : string -> res GeoFile
}.

(** The engine's global session is initialized, or it is not; [G] is the
    state-and-exception monad over that flag. *)
Definition G (A : Type) : Type := bool -> res A * bool.

#[global] Instance G_ret : MRet G := fun A a s => (Ok a, s).
#[global] Instance G_bind : MBind G := fun A B k m s =>
  match m s with
  | (Ok a, s') => k a s'
  | (Raise e, s') => (Raise e, s')
  end.

(** [initialize()] *)
Definition initialize : G unit := fun _ => (Ok tt, true).

(** [finalize()] *)
Definition finalize : G unit := fun _ => (Ok tt, false).

Definition lift_G {A} (r : res A) : G A := fun s => (r, s).

(** One pass of the loop over the point entities: the node of entity
    [i]. *)
Definition import_node (f : GeoFile) (model_tags : list (Z * Z))
    (i : Z * Z) : res Node.t :=
  let nnumber := i.2 in
  c ← getValue f 0 nnumber;
  '(x, y, z) ← unpack3 c;
  let tag := @assign_tag (geo_groups f) nnumber 0 model_tags in
  Ok (Node.init nnumber x y z tag None).

Fixpoint import_nodes (f : GeoFile) (model_tags : list (Z * Z))
    (nodes : list (Z * Z)) (nodes_db : list (Z * Node.t))
    : res (list (Z * Node.t)) :=
  match nodes with
  | [] => Ok nodes_db
  | i :: nodes' =>
      node ← import_node f model_tags i;
      import_nodes f model_tags nodes' (dict_set nodes_db i.2 node)
  end.

(** [[nodes_db[n[1]] for n in bound_node]] *)
Fixpoint boundary_nodes (nodes_db : list (Z * Node.t))
    (bound_node : list (Z * Z)) : res (list Node.t) :=
  match bound_node with
  | [] => Ok []
  | n :: bound_node' =>
      node ← dict_get nodes_db n.2;
      nodes ← boundary_nodes nodes_db bound_node';
      Ok (node :: nodes)
  end.

(** One pass of the loop over the line entities: the element of entity
    [e]. *)
Definition import_line (f : GeoFile) (model_tags : list (Z * Z))
    (nodes_db : list (Z * Node.t)) (e : Z * Z) : res Element.t :=
  let enumber := e.2 in
  bound_node ← getBoundary f [e];
  nodes ← boundary_nodes nodes_db bound_node;
  let tag := @assign_tag (geo_groups f) enumber 1 model_tags in
  Element.init enumber nodes tag (Some (VStr "uniaxial")).

Fixpoint import_lines (f : GeoFile) (model_tags : list (Z * Z))
    (nodes_db : list (Z * Node.t)) (lines : list (Z * Z))
    (elements_db : list (Z * Element.t)) : res (list (Z * Element.t)) :=
  match lines with
  | [] => Ok elements_db
  | e :: lines' =>
      element ← import_line f model_tags nodes_db e;
      import_lines f model_tags nodes_db lines'
        (dict_set elements_db e.2 element)
  end.

(** What [import_geofile] does between [open] and [finalize]. *)
Definition import_model (f : GeoFile)
    : res (list (Z * Node.t) * list (Z * Element.t)) :=
  let nodes := getEntities f 0 in
  let lines := getEntities f 1 in
  let model_tags := getPhysicalGroups f in
  nodes_db ← import_nodes f model_tags nodes [];
  elements_db ← import_lines f model_tags nodes_db lines [];
  Ok (nodes_db, elements_db).

(** [import_geofile(filename)] *)
Definition import_geofile `{GmshEngine} (filename : string)
    : G (list (Z * Node.t) * list (Z * Element.t)) :=
  initialize;;
  f ← lift_G (gmsh_open filename);
  dbs ← lift_G (import_model f);
  finalize;;
  mret dbs.

(** ** structeasy_lib.py: [create_nodes] *)

(** The solver's [node(n, *coord)]: it may do anything to the world and
    may raise. *)
Class NodeEnv : Type := {
  ops_node : Z -> list pyval -> M unit
}.

(** The loop of [create_nodes] over the keys still to visit. *)
Fixpoint create_nodes_loop `{NodeEnv} (nodes : list (Z * Node.t))
    (keys : list Z) : M unit :=
  match keys with
  | [] => mret tt
  | n :: keys' =>
      node ← lift (dict_get nodes n);
      ops_node n (Node.coord node);;
      create_nodes_loop nodes keys'
  end.

(** [create_nodes(nodes)]; the solver library is taken to be installed. *)
Definition create_nodes `{NodeEnv} (nodes : list (Z * Node.t)) : M unit :=
  create_nodes_loop nodes (map fst nodes);;
  print "Structure nodes genereted on OpenSeespy".

(** ** More notions for stating properties *)

(** Every entry of [l] is a number. *)
Definition numeric (l : list pyval) : Prop :=
  exists rs : list R, l = map VNum rs.

(** The sum of a list of reals. *)
Definition Rsum (rs : list R) : R := foldr Rplus 0%R rs.

(** An element that [plot_model] can draw: it has a node, and the
    coordinates of its nodes are numbers. *)
Definition plottable (element : Element.t) : Prop :=
  Element.nodes element <> []
  /\ numeric (map Node.x (Element.nodes element))
  /\ numeric (map Node.y (Element.nodes element))
  /\ numeric (map Node.z (Element.nodes element)).

(** ** More sample environments *)

(** A file with the points 1 at (0,0,0) and 2 at (3,4,0), the line 1
    between them, and the groups (0,7) = {1} and (1,9) = {1}. *)
Definition sample_geo : GeoFile :=
  {| geo_groups :=
       {| getEntitiesForPhysicalGroup := fun dim tag =>
            if bool_decide (dim = 0 /\ tag = 7) then [1]
            else if bool_decide (dim = 1 /\ tag = 9) then [1]
            else [] |};
     getEntities := fun dim =>
       if bool_decide (dim = 0) then [(0, 1); (0, 2)]
       else if bool_decide (dim = 1) then [(1, 1)]
       else [];
     getPhysicalGroups := [(0, 7); (1, 9)];
     getValue := fun dim tag =>
       if bool_decide (tag = 1) then Ok [VNum 0; VNum 0; VNum 0]
       else if bool_decide (tag = 2) then Ok [VNum 3; VNum 4; VNum 0]
       else Raise ValueError;
     getBoundary := fun dimTags =>
       match dimTags with
       | [(1, 1)] => Ok [(0, 1); (0, 2)]
       | _ => Raise ValueError
       end |}.

(** An engine that knows one file. *)
Definition sample_engine : GmshEngine :=
  {| gmsh_open := fun filename =>
       if bool_decide (filename = "frame.geo") then Ok sample_geo
       else Raise (OtherError "cannot open file") |}.

(** A solver that accepts every node but number 2. *)
Definition sample_node_env : NodeEnv :=
  {| ops_node := fun n _ =>
       if bool_decide (n = 2) then raise (OtherError "node exists")
       else mret tt |}.

(** * Properties *)

(** ** The model at work on the samples *)

Example str_samples : str 0 = "0" /\ str 255 = "255" /\ str (-12) = "-12".
Proof. repeat split. Qed.

Example assign_tag_samples :
  let model_tags := [(0, 1); (1, 5); (1, 6)] in
  @assign_tag sample_mesh 1 0 model_tags = 1
  /\ @assign_tag sample_mesh 7 0 model_tags = -1
  /\ @assign_tag sample_mesh 7 1 model_tags = 6
  /\ @assign_tag sample_mesh 7 1 (reverse model_tags) = 5.
Proof. repeat split. Qed.

Example start_model_sample :
  start_model "2d" sample_world
  = (Ok tt,
     World ["2d model initialized"] (Some (OpsModel 2 3)) [] []
           (nodes_db sample_world) (elements_db sample_world)).
Proof. reflexivity. Qed.

Example tags_of_sample :
  @tags_of sample_plot_env (nodes_db sample_world)
    (elements_db sample_world) = [1; 2].
Proof. reflexivity. Qed.

Example vecxz_wrong_shape :
  let n0 := Node.init 1 (VNum 0) (VNum 0) (VNum 0) (-1) None in
  let n1 := Node.init 2 (VNum 1) (VNum 0) (VNum 0) (-1) None in
  let e := Element.mk 1 [n0; n1] 1 2 (-1) (VNum 1) [] [] in
  Element.vecxz e (Some [VNum 0; VNum 0; VNum 1; VNum 0]) = Raise ValueError.
Proof. reflexivity. Qed.

(** ** Geometry records *)





















Lemma init_inv (enumber : Z) (nodes : list Node.t) (tag : Z)
    (etype : option pyval) (e : Element.t) :
  Element.init enumber nodes tag etype = Ok e ->
  exists n0 n1 rest,
    nodes = n0 :: n1 :: rest
    /\ e = Element.mk enumber nodes (Node.nnumber n0) (Node.nnumber n1) tag
             (default (VNum 1) etype) [] [].
Proof.
  unfold Element.init.
  destruct nodes as [| n0 [| n1 rest]]; simpl; try discriminate.
  intros [= <-]. now exists n0, n1, rest.
Qed.

(** C9. Right after a successful construction, [nodei] and [nodej] are
    the identifiers of the first and of the second entry of the [nodes]
    sequence the element holds. *)
Theorem init_nodei_nodej (enumber : Z) (nodes : list Node.t) (tag : Z)
    (etype : option pyval) (e : Element.t) :
  Element.init enumber nodes tag etype = Ok e ->
  Element.nodes e = nodes
  /\ exists n0 n1 : Node.t,
       getitem (Element.nodes e) 0 = Ok n0
       /\ getitem (Element.nodes e) 1 = Ok n1
       /\ Element.nodei e = Node.nnumber n0
       /\ Element.nodej e = Node.nnumber n1.
Proof.
  intros Hinit.
  destruct (init_inv _ _ _ _ _ Hinit) as (n0 & n1 & rest & -> & ->).
  split; [reflexivity |]. now exists n0, n1.
Qed.

Lemma init_nodei_nodej_witness :
  let n0 := Node.init 11 (VNum 0) (VNum 0) (VNum 0) (-1) None in
  let n1 := Node.init 12 (VNum 1) (VNum 0) (VNum 0) (-1) None in
  let e := Element.mk 5 [n0; n1] 11 12 3 (VStr "uniaxial") [] [] in
  Element.nodes e = [n0; n1]
  /\ exists m0 m1 : Node.t,
       getitem (Element.nodes e) 0 = Ok m0
       /\ getitem (Element.nodes e) 1 = Ok m1
       /\ Element.nodei e = Node.nnumber m0
       /\ Element.nodej e = Node.nnumber m1.
Proof.
  intros n0 n1 e.
  apply (init_nodei_nodej 5 [n0; n1] 3 (Some (VStr "uniaxial")) e).
  reflexivity.
Defined.

Lemma init_ok_iff (enumber : Z) (nodes : list Node.t) (tag : Z)
    (etype : option pyval) :
  (exists e, Element.init enumber nodes tag etype = Ok e)
  <-> (2 <= List.length nodes)%nat.
Proof.
  split.
  - intros [e He].
    destruct (init_inv _ _ _ _ _ He) as (n0 & n1 & rest & -> & _).
    simpl. lia.
  - destruct nodes as [| n0 [| n1 rest]]; simpl; try lia.
    intros _. eexists. reflexivity.
Qed.

Lemma length_None_iff (e : Element.t) :
  (2 <= List.length (Element.nodes e))%nat ->
  Element.length e = Ok VNone
  <-> (2 < List.length (Element.nodes e))%nat.
Proof.
  intros Hge. unfold Element.length.
  destruct (Nat.eqb_spec (List.length (Element.nodes e)) 2) as [Heq | Hne].
  - split; [| lia].
    destruct (Element.nodes e) as [| n0 [| n1 [| n2 rest]]];
      simpl in Heq; try lia.
    simpl.
    destruct (unpack3 (Node.coord n0)) as [[[x1 y1] z1] |];
      simpl; try discriminate.
    destruct (unpack3 (Node.coord n1)) as [[[x2 y2] z2] |];
      simpl; try discriminate.
    destruct (py_sub x2 x1) as [dx |]; simpl; try discriminate.
    destruct (pow_2 dx) as [dx2 |]; simpl; try discriminate.
    destruct (py_sub y2 y1) as [dy |]; simpl; try discriminate.
    destruct (pow_2 dy) as [dy2 |]; simpl; try discriminate.
    destruct (py_add dx2 dy2) as [s1 |]; simpl; try discriminate.
    destruct (py_sub z2 z1) as [dz |]; simpl; try discriminate.
    destruct (pow_2 dz) as [dz2 |]; simpl; try discriminate.
    destruct (py_add s1 dz2) as [s2 |]; simpl; try discriminate.
    destruct s2; simpl; try discriminate.
    destruct (Rle_dec 0 r); discriminate.
  - split; [lia | reflexivity].
Qed.

(** C10. Building an element on fewer than two nodes fails with an index
    error; so an element that was built has at least two nodes, and right
    after construction its length is undefined ([None]) exactly when it
    was built on more than two nodes. *)
Theorem init_needs_two_nodes (enumber : Z) (nodes : list Node.t) (tag : Z)
    (etype : option pyval) :
  ((List.length nodes < 2)%nat ->
   Element.init enumber nodes tag etype = Raise IndexError)
  /\ (forall e : Element.t,
         Element.init enumber nodes tag etype = Ok e ->
         (2 <= List.length (Element.nodes e))%nat
         /\ (Element.length e = Ok VNone <-> (2 < List.length nodes)%nat)).
Proof.
  split.
  - destruct nodes as [| n0 [| n1 rest]]; simpl; try lia; reflexivity.
  - intros e He.
    destruct (init_inv _ _ _ _ _ He) as (n0 & n1 & rest & -> & ->).
    assert (Hge : (2 <= List.length (n0 :: n1 :: rest))%nat)
      by (simpl; lia).
    split; [exact Hge |].
    now apply length_None_iff.
Qed.

Lemma init_needs_two_nodes_witness :
  let n0 := Node.init 11 (VNum 0) (VNum 0) (VNum 0) (-1) None in
  let n1 := Node.init 12 (VNum 1) (VNum 0) (VNum 0) (-1) None in
  let e := Element.mk 5 [n0; n1; n0] 11 12 3 (VNum 1) [] [] in
  Element.init 5 [n0] 3 None = Raise IndexError
  /\ (2 <= List.length (Element.nodes e))%nat
  /\ (Element.length e = Ok VNone <-> (2 < 3)%nat).
Proof.
  intros n0 n1 e. split.
  - apply (proj1 (init_needs_two_nodes 5 [n0] 3 None)).
    simpl. lia.
  - apply (proj2 (init_needs_two_nodes 5 [n0; n1; n0] 3 None) e).
    reflexivity.
Defined.

(** ** Tag resolution *)

Section assign_tag.
Context `{GmshModel}.
Variables (nnumber eltype : Z).

Abbreviation member := (in_group nnumber eltype).
Abbreviation scan := (assign_tag_loop nnumber eltype).

Lemma scan_cons (tag : Z) (g : Z * Z) (l : list (Z * Z)) :
  scan tag (g :: l)
  = scan (if bool_decide (member g) then g.2 else tag) l.
Proof.
  unfold assign_tag_loop, in_group. simpl.
  now rewrite bool_decide_and.
Qed.

Lemma scan_no_match (tag : Z) (l : list (Z * Z)) :
  (forall g, g ∈ l -> ~ member g) -> scan tag l = tag.
Proof.
  revert tag. induction l as [| g l IH]; intros tag Hno; [reflexivity |].
  rewrite scan_cons, bool_decide_eq_false_2 by (apply Hno; left).
  apply IH. intros g' Hg'. apply Hno. now right.
Qed.

Lemma scan_last_match (tag : Z) (l1 l2 : list (Z * Z)) (g : Z * Z) :
  member g ->
  (forall g', g' ∈ l2 -> ~ member g') ->
  scan tag (l1 ++ g :: l2) = g.2.
Proof.
  intros Hg Hno. revert tag.
  induction l1 as [| g1 l1 IH]; intros tag.
  - rewrite app_nil_l, scan_cons, bool_decide_eq_true_2 by exact Hg.
    now apply scan_no_match.
  - rewrite <- app_comm_cons, scan_cons. apply IH.
Qed.

Lemma scan_all_matches_agree (tag k : Z) (l : list (Z * Z)) :
  (forall g, g ∈ l -> member g -> g.2 = k) ->
  (exists g, g ∈ l /\ member g) \/ tag = k ->
  scan tag l = k.
Proof.
  revert tag. induction l as [| g l IH]; intros tag Hall Hsome.
  - destruct Hsome as [(g & Hg & _) | ->]; [| reflexivity].
    now apply elem_of_nil in Hg.
  - rewrite scan_cons. apply IH.
    + intros g' Hg'. apply Hall. now right.
    + destruct (decide (member g)) as [Hin | Hout].
      * right. rewrite bool_decide_eq_true_2 by exact Hin.
        apply Hall; [left | exact Hin].
      * rewrite bool_decide_eq_false_2 by exact Hout.
        destruct Hsome as [(g' & Hg' & Hin') | ->]; [left | now right].
        apply elem_of_cons in Hg' as [-> | Hg']; [contradiction |].
        now exists g'.
Qed.

End assign_tag.

(** C3. Tag resolution returns -1 when the entity is in no physical group
    of its dimension, the group's identifier when exactly one declared
    group of its dimension contains it, and, when several do, the
    identifier of the one that comes last in the scan. *)
Theorem assign_tag_resolution `{GmshModel} (nnumber eltype : Z)
    (model_tags : list (Z * Z)) :
  ((forall g, g ∈ model_tags -> ~ in_group nnumber eltype g) ->
   assign_tag nnumber eltype model_tags = -1)
  /\ (forall g,
         g ∈ model_tags ->
         in_group nnumber eltype g ->
         (forall g', g' ∈ model_tags -> in_group nnumber eltype g' -> g' = g) ->
         assign_tag nnumber eltype model_tags = g.2)
  /\ (forall l1 g l2,
         model_tags = l1 ++ g :: l2 ->
         in_group nnumber eltype g ->
         (forall g', g' ∈ l2 -> ~ in_group nnumber eltype g') ->
         assign_tag nnumber eltype model_tags = g.2).
Proof.
  unfold assign_tag. repeat split.
  - apply scan_no_match.
  - intros g Hg Hin Huniq. apply scan_all_matches_agree.
    + intros g' Hg' Hin'. now rewrite (Huniq g' Hg' Hin').
    + left. now exists g.
  - intros l1 g l2 -> Hin Hno. now apply scan_last_match.
Qed.

(** ** Solver glue *)

Lemma start_model_3d (w : world) :
  start_model "3d" w
  = (Ok tt,
     World (stdout w ++ ["3d model initialized"]) (Some (OpsModel 3 6))
           (shown w) (files w) (nodes_db w) (elements_db w)).
Proof. reflexivity. Qed.

Lemma start_model_2d (w : world) :
  start_model "2d" w
  = (Ok tt,
     World (stdout w ++ ["2d model initialized"]) (Some (OpsModel 2 3))
           (shown w) (files w) (nodes_db w) (elements_db w)).
Proof. reflexivity. Qed.

Lemma start_model_other (typology : string) (w : world) :
  typology <> "2d" -> typology <> "3d" ->
  start_model typology w
  = (Raise (NameError not_valid_model_type),
     World (stdout w ++ [EmptyString]) (ops w) (shown w) (files w)
           (nodes_db w) (elements_db w)).
Proof.
  intros H2 H3. unfold start_model.
  now rewrite !bool_decide_eq_false_2 by assumption.
Qed.

(** C2. [start_model('2d')] sets the solver up with 3 degrees of freedom
    per node, [start_model('3d')] with 6; on any other string, 'tower'
    for one, it raises the invalid-argument failure (a [NameError]) and
    leaves the session as it was; it raises exactly when the string is
    neither '2d' nor '3d'. *)
Theorem start_model_degrees_of_freedom (w : world) :
  ((start_model "2d" w).1 = Ok tt
   /\ ndf <$> ops (start_model "2d" w).2 = Some 3)
  /\ ((start_model "3d" w).1 = Ok tt
      /\ ndf <$> ops (start_model "3d" w).2 = Some 6)
  /\ ((start_model "tower" w).1 = Raise (NameError not_valid_model_type)
      /\ ops (start_model "tower" w).2 = ops w)
  /\ (forall typology : string,
         (exists e, (start_model typology w).1 = Raise e)
         <-> typology <> "2d" /\ typology <> "3d")
  /\ (forall (typology : string) (e : exn),
         (start_model typology w).1 = Raise e ->
         e = NameError not_valid_model_type
         /\ ops (start_model typology w).2 = ops w).
Proof.
  assert (Hraise : forall typology e,
             (start_model typology w).1 = Raise e ->
             typology <> "2d" /\ typology <> "3d").
  { intros typology e He. split; intros ->; discriminate He. }
  split; [now split |]. split; [now split |]. split; [now split |].
  split.
  - intros typology. split.
    + intros [e He]. exact (Hraise typology e He).
    + intros [H2 H3]. rewrite start_model_other by assumption.
      now eexists.
  - intros typology e He.
    destruct (Hraise typology e He) as [H2 H3].
    rewrite start_model_other in He |- * by assumption.
    simpl in He. split; [congruence | reflexivity].
Qed.

Lemma try_except_ok {A} (body handler : M A) (w w' : world) (a : A) :
  body w = (Ok a, w') -> try_except body handler w = (Ok a, w').
Proof. intros Hb. unfold try_except. now rewrite Hb. Qed.

Lemma try_except_raise {A} (body handler : M A) (w w' : world) (e : exn) :
  body w = (Raise e, w') -> try_except body handler w = handler w'.
Proof. intros Hb. unfold try_except. now rewrite Hb. Qed.

(** C6. [material_tester] never passes a failure on to its caller:
    whatever the calls into the solver and the plotting library do, it
    returns normally; when the material test fails, with whatever
    exception, the diagnostic hint is printed in its place, and when it
    succeeds nothing more happens. *)
Theorem material_tester_never_raises `{MaterialEnv} (matTag : Z)
    (strain : list pyval) (title scaleStress : pyval) (w : world) :
  (material_tester matTag strain title scaleStress w).1 = Ok tt
  /\ (forall (e : exn) (w' : world),
         material_test matTag strain title scaleStress w = (Raise e, w') ->
         material_tester matTag strain title scaleStress w
         = (Ok tt,
            World (stdout w' ++ [material_tester_hint]) (ops w') (shown w')
                  (files w') (nodes_db w') (elements_db w')))
  /\ (forall w' : world,
         material_test matTag strain title scaleStress w = (Ok tt, w') ->
         material_tester matTag strain title scaleStress w = (Ok tt, w')).
Proof.
  unfold material_tester. repeat split.
  - unfold try_except.
    destruct (material_test matTag strain title scaleStress w)
      as [[[] | e] w']; reflexivity.
  - intros e w' Hb. now rewrite (try_except_raise _ _ _ _ _ Hb).
  - intros w' Hb. now apply try_except_ok.
Qed.

(** ** Visualization *)

Section plot_model_facts.
Context `{PlotEnv}.
Variables (show_numbers show_tags color_by_tag save_html : bool).
Variables (filename : string) (show_legend : bool).

Abbreviation run :=
  (plot_model show_numbers show_tags color_by_tag save_html filename
     show_legend).

(** A call either fails in the loop over the elements, before anything
    is shown, or shows one figure and writes it when asked to. *)
Lemma plot_model_run (w : world) :
  (exists e, run w = (Raise e, w))
  \/ (exists fig,
        run w
        = (Ok tt,
           World (stdout w) (ops w) (shown w ++ [fig])
                 (if save_html then files w ++ [(filename, fig)]
                  else files w)
                 (nodes_db w) (elements_db w))).
Proof.
  unfold plot_model, mbind, M_bind, gets, lift. simpl.
  destruct (element_loop _ _ _ _ _ _ _) as [traces | e].
  - right. eexists. unfold show, write_html, modify, mret, M_ret. simpl.
    destruct save_html; reflexivity.
  - left. now exists e.
Qed.

End plot_model_facts.

(** C8. [plot_model] only reads the two collections: whatever the flags
    and whether it returns or raises, the node and element dictionaries,
    the printed text and the solver's session are afterwards what they
    were before, and no file is written but the one asked for with
    [save_html], which holds the figure shown. *)
Theorem plot_model_read_only `{PlotEnv}
    (show_numbers show_tags color_by_tag save_html : bool)
    (filename : string) (show_legend : bool) (w : world) :
  let w' := (plot_model show_numbers show_tags color_by_tag save_html
               filename show_legend w).2 in
  nodes_db w' = nodes_db w
  /\ elements_db w' = elements_db w
  /\ stdout w' = stdout w
  /\ ops w' = ops w
  /\ (files w' = files w
      \/ (save_html = true
          /\ exists fig,
               shown w' = shown w ++ [fig]
               /\ files w' = files w ++ [(filename, fig)])).
Proof.
  destruct (plot_model_run show_numbers show_tags color_by_tag save_html
              filename show_legend w) as [[e ->] | [fig ->]]; simpl.
  - repeat split; try reflexivity. now left.
  - repeat split; try reflexivity.
    destruct save_html; [right | now left].
    split; [reflexivity | now exists fig].
Qed.

(** *** Printing integers and colours *)



Lemma str_inj (a b : Z) : str a = str b -> a = b.
Proof.
  assert (Hparse : forall z,
             NilZero.int_of_string (str z) = Some (Z.to_int z)).
  { intros z. apply NilZero.isi; destruct z; simpl; intros [= E];
      try discriminate E; now apply DecimalPos.Unsigned.to_uint_nonnil in E. }
  intros Heq. apply DecimalZ.to_int_inj.
  pose proof (Hparse a) as Ha. rewrite Heq, Hparse in Ha. congruence.
Qed.

Lemma occurs_string_of_uint (c : ascii) (d : Decimal.uint) :
  c = ","%char \/ c = ")"%char ->
  ~ occurs c (NilEmpty.string_of_uint d).
Proof.
  intros [-> | ->]; induction d; simpl; intuition discriminate.
Qed.

Lemma occurs_str (c : ascii) (z : Z) :
  c = ","%char \/ c = ")"%char -> ~ occurs c (str z).
Proof.
  intros Hc. unfold str.
  assert (Hu : forall d, ~ occurs c (NilZero.string_of_uint d)).
  { intros d. destruct d; try apply (occurs_string_of_uint c _ Hc).
    destruct Hc as [-> | ->]; simpl; intuition discriminate. }
  destruct (Z.to_int z) as [d | d]; simpl.
  - apply Hu.
  - intros [Hminus | Hd]; [| now apply (Hu d)].
    destruct Hc as [-> | ->]; discriminate Hminus.
Qed.

(** Two strings that are cut at a character which neither first part
    holds have the same parts. *)
Lemma append_delimiter_inj (c : ascii) (s s' r r' : string) :
  ~ occurs c s -> ~ occurs c s' ->
  s +:+ String c r = s' +:+ String c r' -> s = s' /\ r = r'.
Proof.
  revert s'. induction s as [| a s IH]; intros [| a' s'] Hs Hs'; simpl.
  - intros [= ->]. now split.
  - intros [= <- _]. exfalso. apply Hs'. now left.
  - intros [= -> _]. exfalso. apply Hs. now left.
  - intros [= -> Heq]. destruct (IH s') as [-> ->]; try assumption.
    + intros Ho. apply Hs. now right.
    + intros Ho. apply Hs'. now right.
    + now split.
Qed.

#[local] Instance css_rgb_inj : Inj (=) (=) css_rgb.
Proof.
  intros [[r g] b] [[r' g'] b']. unfold css_rgb. simpl. intros [= Heq].
  apply append_delimiter_inj in Heq as [Hr Heq];
    [| apply occurs_str; now left ..].
  apply append_delimiter_inj in Heq as [Hg Heq];
    [| apply occurs_str; now left ..].
  apply append_delimiter_inj in Heq as [Hb _];
    [| apply occurs_str; now right ..].
  apply str_inj in Hr, Hg, Hb. congruence.
Qed.










Section tag_color_map_facts.
Context `{PlotEnv}.
Variables (nodes_db : list (Z * Node.t)).
Variables (elements_db : list (Z * Element.t)).

Abbreviation tags := (tags_of nodes_db elements_db).
Abbreviation n := (List.length tags).
Abbreviation m := (tag_color_map true nodes_db elements_db).













End tag_color_map_facts.


(** The line drawn for an element comes last among the traces of its
    pass and has the element's colour. *)
Lemma element_step_line (show_numbers show_tags color_by_tag : bool)
    (show_legend : bool) (m : gmap Z string) (acc traces : list Scatter3d)
    (enumber : Z) (element : Element.t) :
  element_step show_numbers show_tags color_by_tag show_legend m acc
    (enumber, element) = Ok traces ->
  exists tr,
    last traces = Some tr
    /\ sc_mode tr = "lines"
    /\ sc_line tr
       = Some {| line_color := element_color color_by_tag m element;
                 line_width := 4 |}.
Proof.
  unfold element_step.
  destruct (mean (map Node.x _)) as [mid_x |]; simpl; [| discriminate].
  destruct (mean (map Node.y _)) as [mid_y |]; simpl; [| discriminate].
  destruct (mean (map Node.z _)) as [mid_z |]; simpl; [| discriminate].
  intros [= <-]. eexists. rewrite last_snoc. repeat split.
Qed.

(** The figure that [plot_model] shows starts with the trace of the
    nodes, whose markers have the colours [node_color]. *)
Lemma plot_model_node_trace `{PlotEnv}
    (show_numbers show_tags color_by_tag save_html : bool)
    (filename : string) (show_legend : bool) (w w' : world) :
  plot_model show_numbers show_tags color_by_tag save_html filename
    show_legend w = (Ok tt, w') ->
  exists fig tr traces,
    shown w' = shown w ++ [fig]
    /\ fig_data fig = tr :: traces
    /\ sc_marker tr
       = Some {| marker_size := 8;
                 marker_color :=
                   node_color color_by_tag
                     (tag_color_map color_by_tag (nodes_db w)
                        (elements_db w))
                     (nodes_db w) |}.
Proof.
  unfold plot_model, mbind, M_bind, gets, lift. simpl.
  destruct (element_loop _ _ _ _ _ _ _) as [traces | e]; [| discriminate].
  unfold show, write_html, modify, mret, M_ret. simpl.
  destruct save_html; intros [= <-]; simpl;
    eexists _, _, _; repeat split.
Qed.


Lemma assign_tag_resolution_witness :
  @assign_tag sample_mesh 3 0 [(0, 1); (1, 5); (1, 6)] = -1
  /\ @assign_tag sample_mesh 8 1 [(0, 1); (1, 5); (1, 6)] = 6
  /\ @assign_tag sample_mesh 7 1 [(0, 1); (1, 5); (1, 6)] = 6.
Proof.
  split; [| split].
  - apply (proj1 (@assign_tag_resolution sample_mesh 3 0
                    [(0, 1); (1, 5); (1, 6)])).
    intros g Hg [Hdim Hin].
    repeat (apply elem_of_cons in Hg as [-> | Hg]);
      [| discriminate Hdim | discriminate Hdim | now apply elem_of_nil in Hg].
    vm_compute in Hin.
    repeat (apply elem_of_cons in Hin as [Hin | Hin]; [discriminate Hin |]).
    now apply elem_of_nil in Hin.
  - apply (proj1 (proj2 (@assign_tag_resolution sample_mesh 8 1
                           [(0, 1); (1, 5); (1, 6)])) (1, 6)).
    + right. right. left.
    + split; [reflexivity |]. right. left.
    + intros g Hg [Hdim Hin].
      repeat (apply elem_of_cons in Hg as [-> | Hg]);
        [discriminate Hdim | | reflexivity | now apply elem_of_nil in Hg].
      vm_compute in Hin.
      repeat (apply elem_of_cons in Hin as [Hin | Hin]; [discriminate Hin |]).
      now apply elem_of_nil in Hin.
  - apply (proj2 (proj2 (@assign_tag_resolution sample_mesh 7 1
                           [(0, 1); (1, 5); (1, 6)])) [(0, 1); (1, 5)]
             (1, 6) []).
    + reflexivity.
    + split; [reflexivity |]. left.
    + intros g Hg. now apply elem_of_nil in Hg.
Defined.

Lemma material_tester_never_raises_witness :
  @material_tester sample_material_env 1 [VNum 0; VNum 1] (VStr "steel")
    (VNum 1) sample_world
  = (Ok tt,
     World [material_tester_hint] None [] [] (nodes_db sample_world)
           (elements_db sample_world)).
Proof.
  apply (proj1 (proj2 (@material_tester_never_raises sample_material_env 1
                         [VNum 0; VNum 1] (VStr "steel") (VNum 1)
                         sample_world))
           (OtherError "no material") sample_world).
  reflexivity.
Defined.



(** * Further properties *)

(** ** [Element.length] and [Element.vecxz] *)

Lemma numeric_cons (v : pyval) (l : list pyval) :
  numeric (v :: l) <-> (exists r, v = VNum r) /\ numeric l.
Proof.
  split.
  - intros [[| r rs] Hrs]; [discriminate |].
    injection Hrs as -> ->. split; [now exists r | now exists rs].
  - intros [[r ->] [rs ->]]. now exists (r :: rs).
Qed.

Lemma numeric_nil : numeric [].
Proof. now exists []. Qed.

Lemma numeric_dec (l : list pyval) : numeric l \/ ~ numeric l.
Proof.
  induction l as [| v l [IH | IH]].
  - left. apply numeric_nil.
  - destruct v; try (right; rewrite numeric_cons; now intros [[r' [=]] _]).
    left. apply numeric_cons. split; [now exists r | exact IH].
  - right. rewrite numeric_cons. tauto.
Qed.


Lemma py_add_Ok (a b c : pyval) :
  py_add a b = Ok c -> exists x y, a = VNum x /\ b = VNum y /\ c = VNum (x + y).
Proof. destruct a, b; simpl; intros [= <-]. now eexists _, _. Qed.

Lemma pow_2_Ok (a c : pyval) :
  pow_2 a = Ok c -> exists x, a = VNum x /\ c = VNum (x ^ 2).
Proof. destruct a; simpl; intros [= <-]. now eexists. Qed.


















(** ** [assign_tag] *)

Section assign_tag_more.
Context `{GmshModel}.
Variables (nnumber eltype : Z).

Abbreviation belongs := (in_group nnumber eltype).
Abbreviation loop := (assign_tag_loop nnumber eltype).

Lemma loop_cases (tag : Z) (l : list (Z * Z)) :
  (loop tag l = tag /\ forall g, g ∈ l -> ~ belongs g)
  \/ (exists g, g ∈ l /\ belongs g /\ loop tag l = g.2).
Proof.
  revert tag. induction l as [| g l IH]; intros tag.
  - left. split; [reflexivity |]. intros g Hg. now apply elem_of_nil in Hg.
  - rewrite scan_cons.
    destruct (IH (if bool_decide (belongs g) then g.2 else tag))
      as [[Heq Hno] | (g' & Hg' & Hin & Heq)].
    + destruct (decide (belongs g)) as [Hin | Hout].
      * right. exists g.
        rewrite bool_decide_eq_true_2 in Heq |- * by exact Hin.
        split; [left | now split].
      * left. rewrite bool_decide_eq_false_2 in Heq |- * by exact Hout.
        split; [exact Heq |]. intros g' Hg'.
        apply elem_of_cons in Hg' as [-> | Hg']; [exact Hout | now apply Hno].
    + right. exists g'. split; [now right | now split].
Qed.

Lemma loop_forgets (tag tag' : Z) (l : list (Z * Z)) :
  (exists g, g ∈ l /\ belongs g) -> loop tag l = loop tag' l.
Proof.
  revert tag tag'. induction l as [| g l IH]; intros tag tag' (g' & Hg' & Hin).
  - now apply elem_of_nil in Hg'.
  - rewrite !scan_cons. destruct (decide (belongs g)) as [Hg | Hg].
    + now rewrite !bool_decide_eq_true_2 by exact Hg.
    + rewrite !bool_decide_eq_false_2 by exact Hg. apply IH.
      apply elem_of_cons in Hg' as [-> | Hg']; [contradiction |].
      now exists g'.
Qed.

End assign_tag_more.

(** X8. What [assign_tag] returns is -1 or the identifier of a declared
    group of the entity's dimension that holds the entity; and when no
    group is numbered -1, it returns -1 only for an entity that is in no
    group of its dimension. *)
Theorem assign_tag_sound `{GmshModel} (nnumber eltype : Z)
    (model_tags : list (Z * Z)) :
  (assign_tag nnumber eltype model_tags = -1
   \/ exists g, g ∈ model_tags /\ in_group nnumber eltype g
                /\ assign_tag nnumber eltype model_tags = g.2)
  /\ ((forall g, g ∈ model_tags -> g.2 ≠ -1) ->
      assign_tag nnumber eltype model_tags = -1
      <-> forall g, g ∈ model_tags -> ~ in_group nnumber eltype g).
Proof.
  unfold assign_tag.
  destruct (loop_cases nnumber eltype (-1) model_tags)
    as [[Heq Hno] | (g & Hg & Hin & Heq)].
  - split; [now left |]. intros _. now split.
  - split; [right; now exists g |].
    intros Hids. split.
    + intros Hminus. exfalso. apply (Hids g Hg). congruence.
    + intros Hno. exfalso. now apply (Hno g Hg).
Qed.

Lemma assign_tag_sound_witness :
  @assign_tag sample_mesh 7 1 [(0, 1); (1, 5); (1, 6)] = -1
  <-> forall g, g ∈ [(0, 1); (1, 5); (1, 6)] -> ~ @in_group sample_mesh 7 1 g.
Proof.
  apply (proj2 (@assign_tag_sound sample_mesh 7 1 [(0, 1); (1, 5); (1, 6)])).
  intros g Hg.
  repeat (apply elem_of_cons in Hg as [-> | Hg]); try discriminate.
  now apply elem_of_nil in Hg.
Defined.

(** X9. Scanning two lists of groups one after the other: when the second
    list has a group that holds the entity, the first list does not
    matter; when it has none, the second does not. *)
Theorem assign_tag_app `{GmshModel} (nnumber eltype : Z)
    (l1 l2 : list (Z * Z)) :
  ((exists g, g ∈ l2 /\ in_group nnumber eltype g) ->
   assign_tag nnumber eltype (l1 ++ l2) = assign_tag nnumber eltype l2)
  /\ ((forall g, g ∈ l2 -> ~ in_group nnumber eltype g) ->
      assign_tag nnumber eltype (l1 ++ l2) = assign_tag nnumber eltype l1).
Proof.
  unfold assign_tag, assign_tag_loop. rewrite foldl_app.
  fold (assign_tag_loop nnumber eltype (-1) l1).
  fold (assign_tag_loop nnumber eltype
          (assign_tag_loop nnumber eltype (-1) l1) l2).
  fold (assign_tag_loop nnumber eltype (-1) l2).
  split.
  - apply loop_forgets.
  - apply scan_no_match.
Qed.

Lemma assign_tag_app_witness :
  @assign_tag sample_mesh 7 1 ([(0, 1); (1, 6)] ++ [(1, 5)])
  = @assign_tag sample_mesh 7 1 [(1, 5)].
Proof.
  apply (proj1 (@assign_tag_app sample_mesh 7 1 [(0, 1); (1, 6)] [(1, 5)])).
  exists (1, 5). split; [left |]. split; [reflexivity | left].
Defined.

(** X10. Groups of another dimension than the entity's never change the
    tag: leaving them out of the list gives the same result. *)
Theorem assign_tag_own_dimension `{GmshModel} (nnumber eltype : Z)
    (model_tags : list (Z * Z)) :
  assign_tag nnumber eltype model_tags
  = assign_tag nnumber eltype (filter (fun g => g.1 = eltype) model_tags).
Proof.
  unfold assign_tag. generalize (-1).
  induction model_tags as [| g l IH]; intros tag; [reflexivity |].
  rewrite filter_cons. destruct (decide (g.1 = eltype)) as [Hd | Hd].
  - rewrite !scan_cons. apply IH.
  - rewrite scan_cons, bool_decide_eq_false_2; [apply IH |].
    intros [Hd' _]. contradiction.
Qed.

(** ** Dictionaries *)

Section dict.
Context {A : Type}.
Implicit Types (d : list (Z * A)) (k : Z) (v : A).

Lemma dict_get_elem d k v : dict_get d k = Ok v -> (k, v) ∈ d.
Proof.
  induction d as [| [k' v'] d IH]; simpl; [discriminate |].
  case_bool_decide as Hk.
  - intros [= ->]. subst k'. left.
  - intros Hget. right. now apply IH.
Qed.

Lemma dict_get_is_Ok d k : (exists v, dict_get d k = Ok v) <-> k ∈ d.*1.
Proof.
  induction d as [| [k' v'] d IH]; simpl.
  - split; [now intros [v Hv] | intros Hk; now apply elem_of_nil in Hk].
  - rewrite elem_of_cons. case_bool_decide as Hk; simpl.
    + split; [intros _; now left | intros _; now exists v'].
    + rewrite IH. split; [now right | intros [-> | Hin]; [contradiction | exact Hin]].
Qed.

Lemma dict_get_missing d k : k ∉ d.*1 -> dict_get d k = Raise KeyError.
Proof.
  induction d as [| [k' v'] d IH]; simpl; [reflexivity |].
  rewrite not_elem_of_cons. intros [Hne Hnot].
  rewrite bool_decide_eq_false_2 by congruence. now apply IH.
Qed.

Lemma dict_get_set d k v : dict_get (dict_set d k v) k = Ok v.
Proof.
  induction d as [| [k' v'] d IH]; simpl.
  - now rewrite bool_decide_eq_true_2.
  - case_bool_decide as Hk; simpl.
    + now rewrite bool_decide_eq_true_2.
    + now rewrite bool_decide_eq_false_2.
Qed.

Lemma dict_set_elem d k v k' v' :
  (k', v') ∈ dict_set d k v -> (k' = k /\ v' = v) \/ (k', v') ∈ d.
Proof.
  induction d as [| [k0 v0] d IH]; simpl.
  - intros Hin. apply list_elem_of_singleton in Hin as [= -> ->]. now left.
  - case_bool_decide as Hk; rewrite !elem_of_cons.
    + intros [[= -> ->] | Hin]; [now left | right; now right].
    + intros [Heq | Hin]; [right; now left |].
      destruct (IH Hin) as [Hnew | Hold]; [now left | right; now right].
Qed.

Lemma dict_set_keys_old d k v : k ∈ d.*1 -> (dict_set d k v).*1 = d.*1.
Proof.
  induction d as [| [k0 v0] d IH]; simpl.
  - intros Hin. now apply elem_of_nil in Hin.
  - rewrite elem_of_cons. case_bool_decide as Hk; simpl.
    + intros _. now subst k0.
    + intros [-> | Hin]; [contradiction |]. f_equal. now apply IH.
Qed.

Lemma dict_set_keys_new d k v : k ∉ d.*1 -> (dict_set d k v).*1 = d.*1 ++ [k].
Proof.
  induction d as [| [k0 v0] d IH]; simpl; [reflexivity |].
  rewrite not_elem_of_cons. intros [Hne Hnot].
  rewrite bool_decide_eq_false_2 by congruence. simpl. f_equal.
  now apply IH.
Qed.

Lemma dict_set_keys_elem d k v k' :
  k' ∈ (dict_set d k v).*1 <-> k' = k \/ k' ∈ d.*1.
Proof.
  destruct (decide (k ∈ d.*1)) as [Hin | Hnot].
  - rewrite dict_set_keys_old by exact Hin.
    split; [now right | intros [-> | Hk]; assumption].
  - rewrite dict_set_keys_new, elem_of_app, list_elem_of_singleton
      by exact Hnot.
    tauto.
Qed.

Lemma dict_set_NoDup d k v : NoDup d.*1 -> NoDup (dict_set d k v).*1.
Proof.
  intros Hnd. destruct (decide (k ∈ d.*1)) as [Hin | Hnot].
  - now rewrite dict_set_keys_old.
  - rewrite dict_set_keys_new by exact Hnot.
    apply NoDup_app. split; [exact Hnd |]. split.
    + intros k' Hk' Hk. apply list_elem_of_singleton in Hk as ->.
      contradiction.
    + apply NoDup_singleton.
Qed.

End dict.

(** ** [import_geofile] *)

Section import.
Variables (f : GeoFile) (model_tags : list (Z * Z)).

Lemma import_node_Ok (i : Z * Z) (node : Node.t) :
  import_node f model_tags i = Ok node
  <-> exists x y z,
        getValue f 0 i.2 = Ok [x; y; z]
        /\ node = Node.init i.2 x y z
                    (@assign_tag (geo_groups f) i.2 0 model_tags) None.
Proof.
  unfold import_node.
  destruct (getValue f 0 i.2) as [c | e]; simpl.
  - destruct c as [| x [| y [| z [| t c]]]]; simpl;
      try (split; [discriminate | now intros (x' & y' & z' & [=] & _)]).
    split.
    + intros [= <-]. now exists x, y, z.
    + intros (x' & y' & z' & [= <- <- <-] & ->). reflexivity.
  - split; [discriminate | now intros (x' & y' & z' & [=] & _)].
Qed.

Lemma import_nodes_inv (ents : list (Z * Z)) (db0 db : list (Z * Node.t)) :
  import_nodes f model_tags ents db0 = Ok db ->
  (NoDup db0.*1 -> NoDup db.*1)
  /\ (forall k, k ∈ db.*1 <-> k ∈ db0.*1 \/ k ∈ ents.*2)
  /\ (forall k node,
         (k, node) ∈ db ->
         (k, node) ∈ db0
         \/ exists i, i ∈ ents /\ i.2 = k
                      /\ import_node f model_tags i = Ok node)
  /\ (NoDup (db0.*1 ++ ents.*2) -> db.*1 = db0.*1 ++ ents.*2).
Proof.
  revert db0. induction ents as [| i ents IH]; intros db0; simpl.
  - intros [= <-]. split; [tauto |]. split.
    { intros k. rewrite elem_of_nil. tauto. }
    split; [now left |]. intros _. now rewrite app_nil_r.
  - destruct (import_node f model_tags i) as [node |] eqn:Hi; simpl;
      [| discriminate].
    intros Hrest. destruct (IH _ Hrest) as (Hnd & Hkeys & Hval & Hord).
    split; [| split; [| split]].
    + intros H0. apply Hnd. now apply dict_set_NoDup.
    + intros k. rewrite Hkeys, dict_set_keys_elem, elem_of_cons. tauto.
    + intros k nd Hin. destruct (Hval k nd Hin) as [Hset | (j & Hj & Hk & Hok)].
      * apply dict_set_elem in Hset as [[-> ->] | Hold]; [| now left].
        right. exists i. split; [left | now split].
      * right. exists j. split; [now right | now split].
    + intros H0. apply NoDup_app in H0 as (Hd0 & Hdisj & He).
      apply NoDup_cons in He as [Hi2 He].
      assert (Hnew : i.2 ∉ db0.*1).
      { intros Hin. apply (Hdisj _ Hin). left. }
      rewrite Hord; rewrite dict_set_keys_new by exact Hnew.
      * now rewrite <- app_assoc.
      * rewrite <- app_assoc. simpl. apply NoDup_app.
        split; [exact Hd0 |]. split; [exact Hdisj |].
        now apply NoDup_cons.
Qed.

Lemma import_nodes_is_Ok (ents : list (Z * Z)) (db0 : list (Z * Node.t)) :
  (exists db, import_nodes f model_tags ents db0 = Ok db)
  <-> forall i, i ∈ ents -> exists node, import_node f model_tags i = Ok node.
Proof.
  revert db0. induction ents as [| i ents IH]; intros db0; simpl.
  - split; [| intros _; now eexists].
    intros _ i Hi. now apply elem_of_nil in Hi.
  - destruct (import_node f model_tags i) as [node |] eqn:Hi; simpl.
    + rewrite IH. split.
      * intros Hall j Hj. apply elem_of_cons in Hj as [-> | Hj];
          [now exists node | now apply Hall].
      * intros Hall j Hj. apply Hall. now right.
    + split; [now intros [db Hdb] |].
      intros Hall. destruct (Hall i) as [node Hnode]; [left |].
      congruence.
Qed.

Lemma boundary_nodes_Ok (nodes_db : list (Z * Node.t))
    (bound_node : list (Z * Z)) (nodes : list Node.t) :
  boundary_nodes nodes_db bound_node = Ok nodes ->
  Forall2 (fun n node => dict_get nodes_db n.2 = Ok node) bound_node nodes.
Proof.
  revert nodes. induction bound_node as [| n bound IH]; intros nodes; simpl.
  - intros [= <-]. constructor.
  - destruct (dict_get nodes_db n.2) as [node |] eqn:Hn; simpl;
      [| discriminate].
    destruct (boundary_nodes nodes_db bound) as [rest |]; simpl;
      [| discriminate].
    intros [= <-]. constructor; [exact Hn | now apply IH].
Qed.

Lemma boundary_nodes_is_Ok (nodes_db : list (Z * Node.t))
    (bound_node : list (Z * Z)) :
  ((forall n, n ∈ bound_node -> n.2 ∈ nodes_db.*1) ->
   exists nodes, boundary_nodes nodes_db bound_node = Ok nodes
                 /\ List.length nodes = List.length bound_node)
  /\ ((exists n, n ∈ bound_node /\ n.2 ∉ nodes_db.*1) ->
      boundary_nodes nodes_db bound_node = Raise KeyError).
Proof.
  induction bound_node as [| n bound [IHok IHko]]; simpl.
  - split; [intros _; now exists [] |].
    intros (n & Hn & _). now apply elem_of_nil in Hn.
  - split.
    + intros Hall.
      destruct (proj2 (dict_get_is_Ok nodes_db n.2)) as [node ->];
        [apply Hall; left |].
      destruct IHok as (nodes & -> & Hlen);
        [intros m Hm; apply Hall; now right |].
      simpl. exists (node :: nodes). split; [reflexivity |].
      simpl. now rewrite Hlen.
    + intros (m & Hm & Hmiss).
      destruct (decide (n.2 ∈ nodes_db.*1)) as [Hin | Hout].
      * destruct (proj2 (dict_get_is_Ok nodes_db n.2) Hin) as [node ->].
        simpl. apply elem_of_cons in Hm as [-> | Hm]; [contradiction |].
        rewrite IHko; [reflexivity | now exists m].
      * now rewrite dict_get_missing.
Qed.

End import.

Section import_lines.
Variables (f : GeoFile) (model_tags : list (Z * Z)).
Variables (nodes_db : list (Z * Node.t)).

Lemma import_line_Ok (e : Z * Z) (element : Element.t) :
  import_line f model_tags nodes_db e = Ok element
  <-> exists bound_node nodes,
        getBoundary f [e] = Ok bound_node
        /\ boundary_nodes nodes_db bound_node = Ok nodes
        /\ Element.init e.2 nodes
             (@assign_tag (geo_groups f) e.2 1 model_tags)
             (Some (VStr "uniaxial")) = Ok element.
Proof.
  unfold import_line.
  destruct (getBoundary f [e]) as [bound |]; cbn [mbind res_bind].
  - destruct (boundary_nodes nodes_db bound) as [nodes |] eqn:Hb;
      cbn [mbind res_bind].
    + split; [intros Hinit; now exists bound, nodes |].
      intros (b & ns & [= <-] & Hns & Hinit). congruence.
    + split; [discriminate |].
      intros (b & ns & [= <-] & Hns & _). congruence.
  - split; [discriminate | now intros (b & ns & [=] & _)].
Qed.

Lemma import_lines_inv (lines : list (Z * Z))
    (db0 db : list (Z * Element.t)) :
  import_lines f model_tags nodes_db lines db0 = Ok db ->
  (NoDup db0.*1 -> NoDup db.*1)
  /\ (forall k, k ∈ db.*1 <-> k ∈ db0.*1 \/ k ∈ lines.*2)
  /\ (forall k element,
         (k, element) ∈ db ->
         (k, element) ∈ db0
         \/ exists e, e ∈ lines /\ e.2 = k
                      /\ import_line f model_tags nodes_db e = Ok element).
Proof.
  revert db0. induction lines as [| e lines IH]; intros db0; simpl.
  - intros [= <-]. split; [tauto |]. split; [| now left].
    intros k. rewrite elem_of_nil. tauto.
  - destruct (import_line f model_tags nodes_db e) as [element |] eqn:He;
      simpl; [| discriminate].
    intros Hrest. destruct (IH _ Hrest) as (Hnd & Hkeys & Hval).
    split; [| split].
    + intros H0. apply Hnd. now apply dict_set_NoDup.
    + intros k. rewrite Hkeys, dict_set_keys_elem, elem_of_cons. tauto.
    + intros k el Hin. destruct (Hval k el Hin) as [Hset | (j & Hj & Hk & Hok)].
      * apply dict_set_elem in Hset as [[-> ->] | Hold]; [| now left].
        right. exists e. split; [left | now split].
      * right. exists j. split; [now right | now split].
Qed.

Lemma import_lines_is_Ok (lines : list (Z * Z)) (db0 : list (Z * Element.t)) :
  (exists db, import_lines f model_tags nodes_db lines db0 = Ok db)
  <-> forall e, e ∈ lines ->
        exists element, import_line f model_tags nodes_db e = Ok element.
Proof.
  revert db0. induction lines as [| e lines IH]; intros db0; simpl.
  - split; [| intros _; now eexists].
    intros _ e He. now apply elem_of_nil in He.
  - destruct (import_line f model_tags nodes_db e) as [element |] eqn:He;
      simpl.
    + rewrite IH. split.
      * intros Hall j Hj. apply elem_of_cons in Hj as [-> | Hj];
          [now exists element | now apply Hall].
      * intros Hall j Hj. apply Hall. now right.
    + split; [now intros [db Hdb] |].
      intros Hall. destruct (Hall e) as [element Helement]; [left |].
      congruence.
Qed.

End import_lines.

Lemma import_geofile_Ok `{GmshEngine} (filename : string) (s s' : bool)
    (dbs : list (Z * Node.t) * list (Z * Element.t)) :
  import_geofile filename s = (Ok dbs, s')
  <-> s' = false
      /\ exists f, gmsh_open filename = Ok f /\ import_model f = Ok dbs.
Proof.
  unfold import_geofile, mbind, G_bind, initialize, lift_G, finalize, mret,
    G_ret.
  destruct (gmsh_open filename) as [f | e].
  - destruct (import_model f) as [dbs' | e] eqn:Hmodel.
    + split.
      * intros [= <- <-]. split; [reflexivity | now exists f].
      * intros [-> (f' & [= <-] & Hdbs)]. congruence.
    + split; [discriminate |].
      intros [_ (f' & [= <-] & Hdbs)]. congruence.
  - split; [discriminate | now intros [_ (f' & [=] & _)]].
Qed.

Lemma import_model_Ok (f : GeoFile) (nodes_db : list (Z * Node.t))
    (elements_db : list (Z * Element.t)) :
  import_model f = Ok (nodes_db, elements_db)
  <-> import_nodes f (getPhysicalGroups f) (getEntities f 0) [] = Ok nodes_db
      /\ import_lines f (getPhysicalGroups f) nodes_db (getEntities f 1) []
         = Ok elements_db.
Proof.
  unfold import_model.
  destruct (import_nodes _ _ _ _) as [ndb |]; simpl.
  - destruct (import_lines _ _ ndb _ _) as [edb |] eqn:Hlines; simpl.
    + split; [now intros [= <- <-] |].
      intros [[= <-] Hedb]. congruence.
    + split; [discriminate |]. intros [[= <-] Hedb]. congruence.
  - split; [discriminate | now intros [[=] _]].
Qed.

(** X11. [import_geofile] releases the mesh engine's session only when it
    succeeds: after a successful import the session is finalized, and
    after any failure, a file that cannot be opened included, the session
    is left initialized and the failure is passed on. *)
Theorem import_geofile_session `{GmshEngine} (filename : string) (s : bool) :
  (import_geofile filename s).2
  = match (import_geofile filename s).1 with
    | Ok _ => false
    | Raise _ => true
    end
  /\ (forall e, gmsh_open filename = Raise e ->
                import_geofile filename s = (Raise e, true))
  /\ (forall f e, gmsh_open filename = Ok f -> import_model f = Raise e ->
                  import_geofile filename s = (Raise e, true)).
Proof.
  unfold import_geofile, mbind, G_bind, initialize, lift_G, finalize, mret,
    G_ret.
  destruct (gmsh_open filename) as [f | e].
  - destruct (import_model f) as [dbs | e] eqn:Hmodel; simpl.
    + split; [reflexivity |]. split; [discriminate |].
      intros f' e' [= <-] Hf. congruence.
    + split; [reflexivity |]. split; [discriminate |].
      intros f' e' [= <-] Hf. congruence.
  - simpl. split; [reflexivity |]. split; [now intros e' [= <-] |].
    discriminate.
Qed.

Lemma import_geofile_session_witness :
  @import_geofile sample_engine "missing.geo" false
  = (Raise (OtherError "cannot open file"), true).
Proof.
  apply (proj1 (proj2 (@import_geofile_session sample_engine "missing.geo"
                         false))).
  reflexivity.
Defined.

(** X12. After a successful import the node dictionary has one entry for
    each point entity of the file, under the entity's number; the entry is
    the node of that number, with the coordinates the mesh gives for it
    and the tag that [assign_tag] resolves in dimension 0; and when the
    file lists no point twice, the nodes come in the file's order. *)
Theorem import_geofile_nodes `{GmshEngine} (filename : string) (s s' : bool)
    (nodes_db : list (Z * Node.t)) (elements_db : list (Z * Element.t)) :
  import_geofile filename s = (Ok (nodes_db, elements_db), s') ->
  exists f : GeoFile,
    gmsh_open filename = Ok f
    /\ NoDup nodes_db.*1
    /\ (forall k, k ∈ nodes_db.*1 <-> k ∈ (getEntities f 0).*2)
    /\ (forall k node,
           (k, node) ∈ nodes_db ->
           exists x y z,
             getValue f 0 k = Ok [x; y; z]
             /\ node = Node.init k x y z
                         (@assign_tag (geo_groups f) k 0
                            (getPhysicalGroups f)) None)
    /\ (NoDup (getEntities f 0).*2 -> nodes_db.*1 = (getEntities f 0).*2).
Proof.
  intros Himp. apply import_geofile_Ok in Himp as [_ (f & Hopen & Hmodel)].
  apply import_model_Ok in Hmodel as [Hnodes _].
  destruct (import_nodes_inv _ _ _ _ _ Hnodes) as (Hnd & Hkeys & Hval & Hord).
  exists f. split; [exact Hopen |].
  split; [apply Hnd; constructor |].
  split.
  { intros k. rewrite Hkeys, elem_of_nil. tauto. }
  split; [| exact Hord].
  intros k node Hin.
  destruct (Hval k node Hin) as [Hnil | (i & Hi & <- & Hok)].
  - now apply elem_of_nil in Hnil.
  - now apply import_node_Ok in Hok.
Qed.

Lemma sample_import :
  @import_geofile sample_engine "frame.geo" false
  = (Ok ([(1, Node.init 1 (VNum 0) (VNum 0) (VNum 0) 7 None);
          (2, Node.init 2 (VNum 3) (VNum 4) (VNum 0) (-1) None)],
         [(1, Element.mk 1
                [Node.init 1 (VNum 0) (VNum 0) (VNum 0) 7 None;
                 Node.init 2 (VNum 3) (VNum 4) (VNum 0) (-1) None]
                1 2 9 (VStr "uniaxial") [] [])]),
     false).
Proof. reflexivity. Defined.

Lemma import_geofile_nodes_witness :
  exists f : GeoFile,
    @gmsh_open sample_engine "frame.geo" = Ok f
    /\ NoDup [1; 2]
    /\ (forall k, k ∈ [1; 2] <-> k ∈ (getEntities f 0).*2)
    /\ (forall k node,
           (k, node)
           ∈ [(1, Node.init 1 (VNum 0) (VNum 0) (VNum 0) 7 None);
              (2, Node.init 2 (VNum 3) (VNum 4) (VNum 0) (-1) None)] ->
           exists x y z,
             getValue f 0 k = Ok [x; y; z]
             /\ node = Node.init k x y z
                         (@assign_tag (geo_groups f) k 0
                            (getPhysicalGroups f)) None)
    /\ (NoDup (getEntities f 0).*2 -> [1; 2] = (getEntities f 0).*2).
Proof.
  exact (@import_geofile_nodes sample_engine "frame.geo" false false _ _
           sample_import).
Defined.

(** X13. After a successful import every element stands for a line entity
    of the file: it is stored under the line's number, typed 'uniaxial',
    tagged as [assign_tag] resolves in dimension 1, and built on at least
    two nodes, which are the nodes that the node dictionary holds under
    the numbers of the line's boundary points, in the boundary's order. *)
Theorem import_geofile_elements `{GmshEngine} (filename : string)
    (s s' : bool) (nodes_db : list (Z * Node.t))
    (elements_db : list (Z * Element.t)) :
  import_geofile filename s = (Ok (nodes_db, elements_db), s') ->
  exists f : GeoFile,
    gmsh_open filename = Ok f
    /\ NoDup elements_db.*1
    /\ (forall k, k ∈ elements_db.*1 <-> k ∈ (getEntities f 1).*2)
    /\ (forall k element,
           (k, element) ∈ elements_db ->
           Element.enumber element = k
           /\ Element.etype element = VStr "uniaxial"
           /\ Element.tag element
              = @assign_tag (geo_groups f) k 1 (getPhysicalGroups f)
           /\ (2 <= List.length (Element.nodes element))%nat
           /\ (forall node, node ∈ Element.nodes element ->
                 dict_get nodes_db (Node.nnumber node) = Ok node)
           /\ exists e bound_node,
                e ∈ getEntities f 1 /\ e.2 = k
                /\ getBoundary f [e] = Ok bound_node
                /\ Node.nnumber <$> Element.nodes element = bound_node.*2).
Proof.
  intros Himp.
  apply import_geofile_Ok in Himp as [_ (f & Hopen & Hmodel)].
  apply import_model_Ok in Hmodel as [Hndb Hlines].
  assert (Hnode : forall k node,
             (k, node) ∈ nodes_db -> Node.nnumber node = k).
  { intros k node Hin.
    destruct (import_nodes_inv _ _ _ _ _ Hndb) as (_ & _ & Hval & _).
    destruct (Hval k node Hin) as [Hnil | (i & _ & <- & Hok)];
      [now apply elem_of_nil in Hnil |].
    apply import_node_Ok in Hok as (x & y & z & _ & ->). reflexivity. }
  destruct (import_lines_inv _ _ _ _ _ _ Hlines) as (Hnd & Hkeys & Hval).
  exists f. split; [exact Hopen |].
  split; [apply Hnd; constructor |].
  split.
  { intros k. rewrite Hkeys, elem_of_nil. tauto. }
  intros k element Hin.
  destruct (Hval k element Hin) as [Hnil | (e & He & <- & Hok)].
  { now apply elem_of_nil in Hnil. }
  apply import_line_Ok in Hok as (bound & nodes & Hbound & Hnodes & Hinit).
  destruct (init_inv _ _ _ _ _ Hinit) as (n0 & n1 & rest & Hshape & ->).
  simpl. apply boundary_nodes_Ok in Hnodes.
  assert (Hown : forall n node,
             dict_get nodes_db n = Ok node -> Node.nnumber node = n).
  { intros n node Hget. apply dict_get_elem in Hget.
    now apply Hnode. }
  assert (Hnum : Node.nnumber <$> nodes = bound.*2).
  { clear -Hnodes Hown.
    induction Hnodes as [| n node bound nodes Hget _ IH]; [reflexivity |].
    simpl. f_equal; [now apply Hown | exact IH]. }
  split; [reflexivity |]. split; [reflexivity |]. split; [reflexivity |].
  split; [rewrite Hshape; simpl; lia |].
  split.
  - intros node Hin'. apply list_elem_of_lookup_1 in Hin' as [j Hj].
    destruct (Forall2_lookup_r _ _ _ _ _ Hnodes Hj) as (n & _ & Hget).
    now rewrite (Hown _ _ Hget).
  - exists e, bound. split; [exact He |]. split; [reflexivity |].
    split; [exact Hbound | exact Hnum].
Qed.

Lemma import_geofile_elements_witness :
  exists f : GeoFile,
    @gmsh_open sample_engine "frame.geo" = Ok f
    /\ NoDup [1]
    /\ (forall k, k ∈ [1] <-> k ∈ (getEntities f 1).*2)
    /\ (forall k element,
           (k, element)
           ∈ [(1, Element.mk 1
                    [Node.init 1 (VNum 0) (VNum 0) (VNum 0) 7 None;
                     Node.init 2 (VNum 3) (VNum 4) (VNum 0) (-1) None]
                    1 2 9 (VStr "uniaxial") [] [])] ->
           Element.enumber element = k
           /\ Element.etype element = VStr "uniaxial"
           /\ Element.tag element
              = @assign_tag (geo_groups f) k 1 (getPhysicalGroups f)
           /\ (2 <= List.length (Element.nodes element))%nat
           /\ (forall node, node ∈ Element.nodes element ->
                 dict_get
                   [(1, Node.init 1 (VNum 0) (VNum 0) (VNum 0) 7 None);
                    (2, Node.init 2 (VNum 3) (VNum 4) (VNum 0) (-1) None)]
                   (Node.nnumber node) = Ok node)
           /\ exists e bound_node,
                e ∈ getEntities f 1 /\ e.2 = k
                /\ getBoundary f [e] = Ok bound_node
                /\ Node.nnumber <$> Element.nodes element = bound_node.*2).
Proof.
  exact (@import_geofile_elements sample_engine "frame.geo" false false _ _
           sample_import).
Defined.

(** X14. [import_geofile] succeeds exactly when the file opens, the mesh
    gives three coordinates for every point entity, and the boundary of
    every line entity is found and has at least two points, all of them
    point entities of the file. *)
Theorem import_geofile_succeeds_iff `{GmshEngine} (filename : string)
    (s : bool) :
  (exists dbs s', import_geofile filename s = (Ok dbs, s'))
  <-> exists f : GeoFile,
        gmsh_open filename = Ok f
        /\ (forall i, i ∈ getEntities f 0 ->
              exists x y z, getValue f 0 i.2 = Ok [x; y; z])
        /\ (forall e, e ∈ getEntities f 1 ->
              exists bound_node,
                getBoundary f [e] = Ok bound_node
                /\ (2 <= List.length bound_node)%nat
                /\ forall n, n ∈ bound_node -> n.2 ∈ (getEntities f 0).*2).
Proof.
  split.
  - intros ([nodes_db elements_db] & s' & Himp).
    apply import_geofile_Ok in Himp as [_ (f & Hopen & Hmodel)].
    apply import_model_Ok in Hmodel as [Hnodes Hlines].
    exists f. split; [exact Hopen |]. split.
    + intros i Hi.
      destruct (proj1 (import_nodes_is_Ok _ _ _ _) (ex_intro _ _ Hnodes) i Hi)
        as [node Hnode].
      apply import_node_Ok in Hnode as (x & y & z & Hval & _).
      now exists x, y, z.
    + intros e He.
      destruct (proj1 (import_lines_is_Ok _ _ _ _ _) (ex_intro _ _ Hlines)
                  e He) as [element Helement].
      apply import_line_Ok in Helement
        as (bound & nodes & Hbound & Hbn & Hinit).
      exists bound. split; [exact Hbound |].
      apply boundary_nodes_Ok in Hbn.
      pose proof (proj1 (init_ok_iff _ _ _ _) (ex_intro _ _ Hinit)) as Hlen.
      split; [now rewrite (Forall2_length _ _ _ Hbn) |].
      intros n Hn. apply list_elem_of_lookup_1 in Hn as [j Hj].
      destruct (Forall2_lookup_l _ _ _ _ _ Hbn Hj) as (node & _ & Hget).
      destruct (import_nodes_inv _ _ _ _ _ Hnodes) as (_ & Hkeys & _).
      assert (Hin : n.2 ∈ nodes_db.*1)
        by (apply dict_get_is_Ok; now exists node).
      apply Hkeys in Hin as [Hnil | Hin]; [now apply elem_of_nil in Hnil |].
      exact Hin.
  - intros (f & Hopen & Hpoints & Hedges).
    destruct (proj2 (import_nodes_is_Ok f (getPhysicalGroups f)
                       (getEntities f 0) [])) as [nodes_db Hnodes].
    { intros i Hi. destruct (Hpoints i Hi) as (x & y & z & Hval).
      eexists. apply import_node_Ok. now exists x, y, z. }
    destruct (import_nodes_inv _ _ _ _ _ Hnodes) as (_ & Hkeys & _).
    destruct (proj2 (import_lines_is_Ok f (getPhysicalGroups f) nodes_db
                       (getEntities f 1) [])) as [elements_db Hlines].
    { intros e He. destruct (Hedges e He) as (bound & Hbound & Hlen & Hall).
      destruct (proj1 (boundary_nodes_is_Ok nodes_db bound))
        as (nodes & Hbn & Hlen').
      { intros n Hn. apply Hkeys. right. now apply Hall. }
      destruct (proj2 (init_ok_iff e.2 nodes
                         (@assign_tag (geo_groups f) e.2 1
                            (getPhysicalGroups f))
                         (Some (VStr "uniaxial")))) as [element Hinit];
        [lia |].
      exists element. apply import_line_Ok. now exists bound, nodes. }
    exists (nodes_db, elements_db), false.
    apply import_geofile_Ok. split; [reflexivity |].
    exists f. split; [exact Hopen |]. now apply import_model_Ok.
Qed.

(** ** [material_tester] and [create_nodes] *)

(** X15. When the loop of [material_tester] runs to its end, it has added
    one stress to the list for each strain, after those already there: the
    stresses plotted are as many as the strains. *)
Theorem test_strains_length `{MaterialEnv} (strain stress out : list pyval)
    (w w' : world) :
  test_strains strain stress w = (Ok out, w') ->
  exists new : list pyval,
    out = stress ++ new /\ List.length new = List.length strain.
Proof.
  revert stress w. induction strain as [| eps strain IH]; intros stress w.
  - simpl. intros [= <- <-]. exists []. now rewrite app_nil_r.
  - simpl. unfold mbind, M_bind.
    destruct (setStrain eps w) as [[[] | e] w1]; [| discriminate].
    destruct (getStress w1) as [[s | e] w2]; [| discriminate].
    intros Hrest. destruct (IH _ _ Hrest) as (new & -> & Hlen).
    exists (s :: new). rewrite <- app_assoc. split; [reflexivity |].
    simpl. now rewrite Hlen.
Qed.

Lemma test_strains_length_witness :
  exists new : list pyval,
    [VNum 0; VNum 0] = [] ++ new
    /\ List.length new = List.length [VNum 1; VNum 2].
Proof.
  apply (@test_strains_length
           {| import_opensees := mret tt;
              import_pyplot := mret tt;
              testUniaxialMaterial := fun _ => mret tt;
              setStrain := fun _ => mret tt;
              getStress := mret (VNum 0);
              subplots := fun _ => mret VNone;
              ax_set_title := fun _ _ => mret tt;
              np_array_div := fun l _ => mret (VList l);
              ax_plot := fun _ _ _ _ => mret tt;
              ax_grid := fun _ _ _ => mret tt;
              ax_set_xlabel := fun _ _ => mret tt;
              ax_set_ylabel := fun _ _ => mret tt |}
           [VNum 1; VNum 2] [] [VNum 0; VNum 0] sample_world sample_world).
  reflexivity.
Defined.

Lemma dict_get_middle {A} (l1 l2 : list (Z * A)) (k : Z) (v : A) :
  k ∉ l1.*1 -> dict_get (l1 ++ (k, v) :: l2) k = Ok v.
Proof.
  induction l1 as [| [k' v'] l1 IH]; simpl.
  - intros _. now rewrite bool_decide_eq_true_2.
  - rewrite not_elem_of_cons. intros [Hne Hnot].
    rewrite bool_decide_eq_false_2 by congruence. now apply IH.
Qed.

Lemma create_nodes_loop_app `{NodeEnv} (nodes : list (Z * Node.t))
    (ks1 ks2 : list Z) (w : world) :
  create_nodes_loop nodes (ks1 ++ ks2) w
  = match create_nodes_loop nodes ks1 w with
    | (Ok _, w1) => create_nodes_loop nodes ks2 w1
    | (Raise e, w1) => (Raise e, w1)
    end.
Proof.
  revert w. induction ks1 as [| k ks1 IH]; intros w; [reflexivity |].
  simpl. unfold mbind, M_bind, lift.
  destruct (dict_get nodes k) as [node | e]; [| reflexivity].
  destruct (ops_node k (Node.coord node) w) as [[[] | e] w1];
    [apply IH | reflexivity].
Qed.

(** X16. [create_nodes] stops at the first node the solver refuses: the
    solver's failure is passed on, the nodes that follow are not created
    and the closing message is not printed; when no node is refused, the
    closing message is the last line printed. *)
Theorem create_nodes_first_failure `{NodeEnv} (nodes : list (Z * Node.t))
    (w : world) :
  (forall l1 k node l2 w1 w2 e,
      NoDup nodes.*1 ->
      nodes = l1 ++ (k, node) :: l2 ->
      create_nodes_loop nodes l1.*1 w = (Ok tt, w1) ->
      ops_node k (Node.coord node) w1 = (Raise e, w2) ->
      create_nodes nodes w = (Raise e, w2))
  /\ (forall w', create_nodes nodes w = (Ok tt, w') ->
        exists w1, create_nodes_loop nodes nodes.*1 w = (Ok tt, w1)
                   /\ stdout w'
                      = stdout w1 ++ ["Structure nodes genereted on OpenSeespy"]
                   /\ ops w' = ops w1).
Proof.
  split.
  - intros l1 k node l2 w1 w2 e Hnd -> Hl1 Hk.
    unfold create_nodes, mbind, M_bind.
    change (map fst ?l) with (l.*1).
    rewrite fmap_app, fmap_cons, create_nodes_loop_app, Hl1. simpl.
    unfold mbind, M_bind, lift. rewrite dict_get_middle.
    + now rewrite Hk.
    + rewrite fmap_app, fmap_cons in Hnd.
      apply NoDup_app in Hnd as (_ & Hdisj & _).
      intros Hin. apply (Hdisj _ Hin). left.
  - intros w'. unfold create_nodes, mbind, M_bind.
    change (map fst nodes) with (nodes.*1).
    destruct (create_nodes_loop nodes nodes.*1 w) as [[[] | e] w1];
      [| discriminate].
    intros [= <-]. exists w1. now repeat split.
Qed.

Lemma create_nodes_first_failure_witness :
  @create_nodes sample_node_env (nodes_db sample_world) sample_world
  = (Raise (OtherError "node exists"), sample_world).
Proof.
  apply (proj1 (@create_nodes_first_failure sample_node_env
                  (nodes_db sample_world) sample_world)
           [(1, Node.init 1 (VNum 0) (VNum 0) (VNum 0) 1 None)] 2
           (Node.init 2 (VNum 3) (VNum 4) (VNum 0) (-1) None) []
           sample_world sample_world (OtherError "node exists")).
  - repeat constructor; intros Hin;
      repeat (apply elem_of_cons in Hin as [Hin | Hin]; [discriminate Hin |]);
      now apply elem_of_nil in Hin.
  - reflexivity.
  - reflexivity.
  - reflexivity.
Defined.

(** ** [plot_model] *)

Lemma fold_left_Rplus (rs : list R) (a : R) :
  fold_left Rplus rs a = (a + Rsum rs)%R.
Proof.
  revert a. induction rs as [| r rs IH]; intros a; simpl.
  - unfold Rsum. simpl. ring.
  - rewrite IH. unfold Rsum. simpl. ring.
Qed.

Lemma py_sum_numeric (rs : list R) : py_sum (map VNum rs) = Ok (VNum (Rsum rs)).
Proof.
  unfold py_sum.
  assert (Hgo : forall a,
             foldl (fun acc v => a ← acc; py_add a v) (Ok (VNum a))
               (map VNum rs)
             = Ok (VNum (fold_left Rplus rs a))).
  { induction rs as [| r rs IH]; intros a; [reflexivity |]. simpl. apply IH. }
  rewrite Hgo, fold_left_Rplus. do 2 f_equal. ring.
Qed.

Lemma py_sum_not_numeric (l : list pyval) :
  ~ numeric l -> py_sum l = Raise TypeError.
Proof.
  unfold py_sum.
  assert (Hraise : forall l' : list pyval,
             foldl (fun acc v => a ← acc; py_add a v) (Raise TypeError) l'
             = Raise TypeError).
  { induction l' as [| v l' IH]; [reflexivity | exact IH]. }
  generalize (VNum 0). induction l as [| v l IH]; intros a Hnot.
  - destruct Hnot. apply numeric_nil.
  - simpl. destruct (py_add a v) as [s |] eqn:Hadd.
    + apply IH. intros Hl. apply Hnot. apply numeric_cons. split; [| exact Hl].
      apply py_add_Ok in Hadd as (x & y & _ & -> & _). now exists y.
    + destruct a, v; simpl in Hadd; try discriminate Hadd;
        injection Hadd as <-; apply Hraise.
Qed.

Lemma mean_numeric (rs : list R) :
  rs <> [] ->
  mean (map VNum rs) = Ok (VNum (Rsum rs / INR (List.length rs))).
Proof.
  intros Hne. unfold mean. rewrite py_sum_numeric. simpl.
  rewrite length_map.
  destruct (Req_dec_T (INR (List.length rs)) 0) as [Hz | _]; [| reflexivity].
  exfalso. revert Hz. apply not_0_INR. destruct rs; [contradiction | simpl; lia].
Qed.

Lemma mean_nil : mean [] = Raise ZeroDivisionError.
Proof.
  unfold mean. simpl. destruct (Req_dec_T 0 0) as [_ | Hne];
    [reflexivity | contradiction].
Qed.

Lemma mean_not_numeric (l : list pyval) :
  ~ numeric l -> mean l = Raise TypeError.
Proof. intros Hnot. unfold mean. now rewrite py_sum_not_numeric. Qed.

Lemma mean_cases (l : list pyval) :
  (l <> [] /\ numeric l /\ exists v, mean l = Ok v)
  \/ ((l = [] \/ ~ numeric l)
      /\ (mean l = Raise ZeroDivisionError \/ mean l = Raise TypeError)).
Proof.
  destruct l as [| v l].
  - right. split; [now left | left; apply mean_nil].
  - destruct (numeric_dec (v :: l)) as [[rs Hrs] | Hnot].
    + left. split; [discriminate |]. split; [now exists rs |].
      rewrite Hrs. eexists. apply mean_numeric. intros ->. discriminate.
    + right. split; [now right | right; now apply mean_not_numeric].
Qed.

Section plot_more.
Context `{PlotEnv}.
Variables (show_numbers show_tags color_by_tag save_html : bool).
Variables (filename : string) (show_legend : bool).
Variable (tcm : gmap Z string).

Abbreviation step := (element_step show_numbers show_tags color_by_tag
                        show_legend tcm).
Abbreviation eloop := (element_loop show_numbers show_tags color_by_tag
                         show_legend tcm).
Abbreviation per_element := (if show_numbers || show_tags then 2 else 1)%nat.

Lemma map_nil_iff {A B} (g : A -> B) (l : list A) : map g l = [] <-> l = [].
Proof. destruct l; simpl; split; congruence. Qed.

Lemma element_step_cases (acc : list Scatter3d) (item : Z * Element.t) :
  (plottable item.2
   /\ exists new, step acc item = Ok (acc ++ new)
                  /\ List.length new = per_element)
  \/ (~ plottable item.2
      /\ (step acc item = Raise ZeroDivisionError
          \/ step acc item = Raise TypeError)).
Proof.
  destruct item as [enumber element]. unfold plottable, element_step. simpl.
  destruct (mean_cases (map Node.x (Element.nodes element)))
    as [(Hx0 & Hx & vx & ->) | [Hx [-> | ->]]]; simpl;
    try (right; split; [| tauto]; rewrite <- (map_nil_iff Node.x); tauto).
  destruct (mean_cases (map Node.y (Element.nodes element)))
    as [(Hy0 & Hy & vy & ->) | [Hy [-> | ->]]]; simpl;
    try (right; split; [| tauto]; rewrite <- (map_nil_iff Node.y); tauto).
  destruct (mean_cases (map Node.z (Element.nodes element)))
    as [(Hz0 & Hz & vz & ->) | [Hz [-> | ->]]]; simpl;
    try (right; split; [| tauto]; rewrite <- (map_nil_iff Node.z); tauto).
  left. split.
  { rewrite <- (map_nil_iff Node.x). tauto. }
  destruct (show_numbers || show_tags); eexists.
  - rewrite <- app_assoc. split; reflexivity.
  - split; reflexivity.
Qed.

Lemma element_loop_cases (acc : list Scatter3d) (items : list (Z * Element.t)) :
  ((forall item, item ∈ items -> plottable item.2)
   /\ exists new, eloop acc items = Ok (acc ++ new)
                  /\ List.length new
                     = (per_element * List.length items)%nat)
  \/ ((exists item, item ∈ items /\ ~ plottable item.2)
      /\ (eloop acc items = Raise ZeroDivisionError
          \/ eloop acc items = Raise TypeError)).
Proof.
  revert acc. induction items as [| item items IH]; intros acc.
  - left. split; [intros item Hitem; now apply elem_of_nil in Hitem |].
    exists []. simpl. rewrite app_nil_r. split; [reflexivity | lia].
  - simpl.
    destruct (element_step_cases acc item)
      as [(Hp & new & -> & Hlen) | (Hp & Hraise)].
    + simpl. destruct (IH (acc ++ new))
        as [(Hall & new' & -> & Hlen') | ((bad & Hbad & Hnp) & Hraise)].
      * left. split.
        { intros it Hit. apply elem_of_cons in Hit as [-> | Hit];
            [exact Hp | now apply Hall]. }
        exists (new ++ new'). rewrite app_assoc. split; [reflexivity |].
        rewrite length_app, Hlen, Hlen'. lia.
      * right. split; [exists bad; split; [now right | exact Hnp] |].
        exact Hraise.
    + right. split; [exists item; split; [left | exact Hp] |].
      destruct Hraise as [-> | ->]; simpl; tauto.
Qed.

End plot_more.

Section plot_theorems.
Context `{PlotEnv}.
Variables (show_numbers show_tags color_by_tag save_html : bool).
Variables (filename : string) (show_legend : bool).
Variable (w : world).

Abbreviation the_map :=
  (tag_color_map color_by_tag (nodes_db w) (elements_db w)).
Abbreviation the_loop :=
  (element_loop show_numbers show_tags color_by_tag show_legend the_map []
     (elements_db w)).
Abbreviation the_call :=
  (plot_model show_numbers show_tags color_by_tag save_html filename
     show_legend w).

Lemma plot_model_loop :
  match the_loop with
  | Raise e => the_call = (Raise e, w)
  | Ok traces =>
      exists tr fig,
        the_call
        = (Ok tt,
           World (stdout w) (ops w) (shown w ++ [fig])
                 (if save_html then files w ++ [(filename, fig)]
                  else files w)
                 (nodes_db w) (elements_db w))
        /\ fig_data fig = tr :: traces
        /\ sc_line tr = None
        /\ sc_marker tr
           = Some {| marker_size := 8;
                     marker_color :=
                       node_color color_by_tag the_map (nodes_db w) |}
  end.
Proof.
  unfold plot_model, mbind, M_bind, gets, lift. simpl.
  destruct (element_loop _ _ _ _ _ _ _) as [traces | e]; [| reflexivity].
  eexists _, _. unfold show, write_html, modify, mret, M_ret. simpl.
  split; [destruct save_html; reflexivity |].
  split; [reflexivity |]. split; reflexivity.
Qed.

End plot_theorems.

Lemma plot_model_outcome `{PlotEnv}
    (show_numbers show_tags color_by_tag save_html : bool)
    (filename : string) (show_legend : bool) (w : world) :
  ((exists w', plot_model show_numbers show_tags color_by_tag save_html
                 filename show_legend w = (Ok tt, w'))
   <-> forall item, item ∈ elements_db w -> plottable item.2)
  /\ (forall e w',
         plot_model show_numbers show_tags color_by_tag save_html filename
           show_legend w = (Raise e, w') ->
         w' = w /\ (e = ZeroDivisionError \/ e = TypeError)).
Proof.
  pose proof (plot_model_loop show_numbers show_tags color_by_tag save_html
                filename show_legend w) as Hrun.
  destruct (element_loop_cases show_numbers show_tags color_by_tag
              show_legend
              (tag_color_map color_by_tag (nodes_db w) (elements_db w))
              [] (elements_db w))
    as [(Hall & new & Hloop & _) | ((bad & Hbad & Hnp) & Hraise)].
  - rewrite Hloop in Hrun. destruct Hrun as (tr & fig & -> & _).
    split; [| discriminate]. split; [now intros _ | intros _; now eexists].
  - split.
    + split.
      * intros [w' Hok]. destruct Hraise as [Hr | Hr]; rewrite Hr in Hrun;
          congruence.
      * intros Hall. destruct Hnp. now apply Hall.
    + intros e w' Hcall.
      destruct Hraise as [Hr | Hr]; rewrite Hr in Hrun;
        rewrite Hrun in Hcall; injection Hcall as <- <-; tauto.
Qed.




Lemma numeric_elem (l : list pyval) (v : pyval) :
  numeric l -> v ∈ l -> exists r, v = VNum r.
Proof.
  intros [rs ->] Hin. change (map VNum rs) with (VNum <$> rs) in Hin.
  apply list_elem_of_fmap in Hin as (r & -> & _). now exists r.
Qed.

(** X19. A model in which some element has a node without a third
    coordinate ([z = None], a 2D node) cannot be plotted: [plot_model]
    raises, shows nothing and writes nothing. *)
Theorem plot_model_2d_raises `{PlotEnv}
    (show_numbers show_tags color_by_tag save_html : bool)
    (filename : string) (show_legend : bool) (w : world)
    (item : Z * Element.t) (node : Node.t) :
  item ∈ elements_db w ->
  node ∈ Element.nodes item.2 ->
  Node.z node = VNone ->
  exists e,
    plot_model show_numbers show_tags color_by_tag save_html filename
      show_legend w = (Raise e, w).
Proof.
  intros Hitem Hnode Hz.
  destruct (plot_model show_numbers show_tags color_by_tag save_html filename
              show_legend w) as [[[] | e] w'] eqn:Hcall.
  - exfalso.
    pose proof (proj1 (proj1 (plot_model_outcome show_numbers show_tags
                                color_by_tag save_html filename show_legend
                                w)) (ex_intro _ w' Hcall) item Hitem)
      as (_ & _ & _ & Hnum).
    destruct (numeric_elem _ VNone Hnum) as [r Hr]; [| discriminate].
    rewrite <- Hz. change (map ?g ?l) with (g <$> l).
    now apply list_elem_of_fmap_2.
  - exists e.
    destruct (proj2 (plot_model_outcome show_numbers show_tags
                       color_by_tag save_html filename show_legend w)
                e w' Hcall) as [-> _].
    reflexivity.
Qed.

Lemma plot_model_2d_raises_witness :
  let node := Node.init 1 (VNum 0) (VNum 0) VNone (-1) None in
  let element := Element.mk 1 [node; node] 1 1 (-1) (VNum 1) [] [] in
  let w := World [] None [] [] [(1, node)] [(1, element)] in
  exists e,
    @plot_model sample_plot_env false false false true "plot.html" false w
    = (Raise e, w).
Proof.
  intros node element w.
  apply (@plot_model_2d_raises sample_plot_env false false false true
           "plot.html" false w (1, element) node).
  - left.
  - left.
  - reflexivity.
Defined.




Lemma element_loop_black (show_numbers show_tags : bool)
    (show_legend : bool) (tcm : gmap Z string)
    (items : list (Z * Element.t)) (acc traces : list Scatter3d) :
  element_loop show_numbers show_tags false show_legend tcm acc items
  = Ok traces ->
  forall t, t ∈ traces ->
    t ∈ acc
    \/ ((forall l, sc_line t = Some l -> line_color l = "black")
        /\ (forall c, sc_textfont t = Some c -> c = OneColor "black")).
Proof.
  revert acc. induction items as [| [enumber element] items IH]; intros acc.
  - simpl. intros [= <-] t Ht. now left.
  - simpl.
    destruct (mean (map Node.x _)) as [mid_x |]; simpl; [| discriminate].
    destruct (mean (map Node.y _)) as [mid_y |]; simpl; [| discriminate].
    destruct (mean (map Node.z _)) as [mid_z |]; simpl; [| discriminate].
    intros Hloop t Ht. destruct (IH _ Hloop t Ht) as [Hacc | Hnew];
      [| now right].
    destruct (show_numbers || show_tags);
      rewrite ?elem_of_app, ?elem_of_cons, ?elem_of_nil in Hacc.
    + destruct Hacc as [[Hacc | [-> | []]] | [-> | []]]; [now left | |];
        right; simpl; split; intros ? [= <-]; reflexivity || discriminate.
    + destruct Hacc as [Hacc | [-> | []]]; [now left |].
      right; simpl; split; intros ? [= <-]; reflexivity || discriminate.
Qed.

(** X21. Without [color_by_tag] the tags play no part in the colours of
    the figure: every node marker is red, and every line and every
    element label is black. *)
Theorem plot_model_default_colors `{PlotEnv}
    (show_numbers show_tags save_html : bool)
    (filename : string) (show_legend : bool) (w w' : world) :
  plot_model show_numbers show_tags false save_html filename show_legend w
  = (Ok tt, w') ->
  exists fig tr traces,
    shown w' = shown w ++ [fig]
    /\ fig_data fig = tr :: traces
    /\ sc_marker tr
       = Some {| marker_size := 8;
                 marker_color :=
                   replicate (List.length (nodes_db w)) "red" |}
    /\ forall t, t ∈ traces ->
         (forall l, sc_line t = Some l -> line_color l = "black")
         /\ (forall c, sc_textfont t = Some c -> c = OneColor "black").
Proof.
  intros Hcall.
  pose proof (plot_model_loop show_numbers show_tags false save_html
                filename show_legend w) as Hrun.
  destruct (element_loop _ _ _ _ _ _ _) as [traces | e] eqn:Hloop;
    [| congruence].
  destruct Hrun as (tr & fig & Hok & Hdata & _ & Hmarker).
  rewrite Hok in Hcall. injection Hcall as <-.
  exists fig, tr, traces. split; [reflexivity |]. split; [exact Hdata |].
  split; [exact Hmarker |].
  intros t Ht. destruct (element_loop_black _ _ _ _ _ _ _ Hloop t Ht)
    as [Hnil | Hblack]; [now apply elem_of_nil in Hnil | exact Hblack].
Qed.

Lemma sample_world_plottable (item : Z * Element.t) :
  item ∈ elements_db sample_world -> plottable item.2.
Proof.
  intros Hitem. apply list_elem_of_singleton in Hitem as ->.
  split; [discriminate |].
  split; [now exists [0; 3]%R |]. split; [now exists [0; 4]%R |].
  now exists [0; 0]%R.
Qed.

Lemma plot_model_default_colors_witness :
  exists w' fig tr traces,
    @plot_model sample_plot_env false true false false "plot.html" false
      sample_world = (Ok tt, w')
    /\ shown w' = shown sample_world ++ [fig]
    /\ fig_data fig = tr :: traces
    /\ sc_marker tr
       = Some {| marker_size := 8;
                 marker_color :=
                   replicate (List.length (nodes_db sample_world)) "red" |}
    /\ forall t, t ∈ traces ->
         (forall l, sc_line t = Some l -> line_color l = "black")
         /\ (forall c, sc_textfont t = Some c -> c = OneColor "black").
Proof.
  destruct (proj2 (proj1 (@plot_model_outcome sample_plot_env false true false
                            false "plot.html" false sample_world))
              sample_world_plottable) as [w' Hok].
  destruct (@plot_model_default_colors sample_plot_env false true false
              "plot.html" false sample_world w' Hok)
    as (fig & tr & traces & Hfacts).
  now exists w', fig, tr, traces.
Defined.
